(** * The PDF compression pipelines and the SMILES renderers

    A shallow embedding of the four programs of the repository

      - [src/scripts/compress_pdf.py]            (basic compressor),
      - [src/python/rdkit_service/pdf_compress.py] (extended compressor),
      - [src/server/chem/render.py]              (command-line renderer),
      - [src/python/rdkit_service/main.py]       (HTTP renderer),

    as programs of a state-and-exception monad, and the properties that
    their specification states about them.

    The programs are glue around two third-party libraries (pypdf and
    RDKit) and around the operating system.  None of the three is part
    of the repository: they appear here as records of operations, over
    an abstract object heap for the libraries and over an abstract state
    of the file system for the operating system; each operation may
    change its state and may raise.  Every theorem is proved for every
    such library and every such system.  The command line, the standard
    streams and the Python built-ins the programs use ([int],
    [str.lstrip], [str.startswith], [print], [sys.exit]) are modelled
    concretely. *)

From Stdlib Require Import ZArith Ascii String List.
From stdpp Require Import base option list gmap strings pretty.

Local Open Scope Z_scope.
Local Open Scope string_scope.
Local Open Scope list_scope.

(** ** Python values and control flow *)

Module Py.

(** Exceptions.  [PyExc cls msg] is an instance [e] of the class named
    [cls], a subclass of [Exception], with [str(e) = msg].
    [HTTPException] is FastAPI's exception, which carries a status code
    and a detail.  [SystemExit], which is not a subclass of [Exception],
    is a separate outcome below. *)
Inductive exn : Type :=
| PyExc (cls : string) (msg : string)
| HTTPException (status_code : Z) (detail : string).

Definition ValueError (msg : string) : exn := PyExc "ValueError" msg.
Definition IndexError (msg : string) : exn := PyExc "IndexError" msg.
Definition FileNotFoundError (msg : string) : exn := PyExc "FileNotFoundError" msg.
Definition FileExistsError (msg : string) : exn := PyExc "FileExistsError" msg.
Definition NotADirectoryError (msg : string) : exn := PyExc "NotADirectoryError" msg.
Definition IsADirectoryError (msg : string) : exn := PyExc "IsADirectoryError" msg.

(** [str(e)], also what an f-string interpolates. *)
Definition str (e : exn) : string :=
  match e with
  | PyExc _ msg => msg
  | HTTPException c d => pretty c +:+ ": " +:+ d
  end.

Definition exn_class (e : exn) : string :=
  match e with
  | PyExc cls _ => cls
  | HTTPException _ _ => "HTTPException"
  end.

(** The result of a call into a library or into the operating system:
    a value, or a raised instance of [Exception].  What is not an
    [Exception] (an interrupt from the keyboard, say) is not a thing
    that a call does, and is outside the model. *)
Inductive result (A : Type) : Type :=
| Success (a : A)
| Failure (e : exn).
Global Arguments Success {A} a.
Global Arguments Failure {A} e.

(** The outcome of running a piece of a program: it returns, it raises
    an instance of [Exception], or it raises [SystemExit(code)]. *)
Inductive outcome (A : Type) : Type :=
| Ok (a : A)
| Raise (e : exn)
| Exit (code : Z).
Global Arguments Ok {A} a.
Global Arguments Raise {A} e.
Global Arguments Exit {A} code.

End Py.
Export Py.

(** ** The monad of programs

    A program transforms a state [S] and has an [outcome].  The state is
    kept when the program raises: effects performed before the exception
    are not undone. *)

Section Monad.
Context {S : Type}.

Definition M (A : Type) : Type := S → S * outcome A.

Definition run {A} (m : M A) (s : S) : S * outcome A := m s.

Definition ret {A} (a : A) : M A := λ s, (s, Ok a).

Definition bind {A B} (m : M A) (k : A → M B) : M B :=
  λ s, match m s with
       | (s', Ok a) => k a s'
       | (s', Raise e) => (s', Raise e)
       | (s', Exit c) => (s', Exit c)
       end.

(** [raise e] *)
Definition raise {A} (e : exn) : M A := λ s, (s, Raise e).

(** [sys.exit(code)] raises [SystemExit(code)] *)
Definition sys_exit {A} (code : Z) : M A := λ s, (s, Exit code).

(** [try: body  except Exception as e: handler e].  [SystemExit] is not
    an [Exception] and passes through. *)
Definition try_except {A} (body : M A) (handler : exn → M A) : M A :=
  λ s, match body s with
       | (s', Raise e) => handler e s'
       | r => r
       end.

(** [try: body  except Exception: pass] *)
Definition try_pass (body : M unit) : M unit :=
  try_except body (λ _, ret tt).

Definition get : M S := λ s, (s, Ok s).
End Monad.
Global Arguments M : clear implicits.

Declare Scope py_scope.
Delimit Scope py_scope with py.
Notation "'let*' x ':=' c 'in' k" := (bind c (λ x, k))
  (at level 10, x pattern, c at level 100, k at level 200) : py_scope.
Notation "c ';;;' k" := (bind c (λ _, k))
  (at level 100, k at level 200, right associativity) : py_scope.
Local Open Scope py_scope.

(** [for x in xs: body x] *)
Fixpoint for_each {S A} (xs : list A) (body : A → M S unit) : M S unit :=
  match xs with
  | [] => ret tt
  | x :: xs' => body x ;;; for_each xs' body
  end.

(** ** Strings

    A Python [str] is a [string] whose characters are the code points
    below 256. *)

Module Str.

(** [c.isspace()] for the code points below 256: the characters that
    [str.lstrip] strips. *)
Definition isspace (c : ascii) : bool :=
  let n := nat_of_ascii c in
  ((9 <=? n) && (n <=? 13) || (28 <=? n) && (n <=? 32)
   || (n =? 133) || (n =? 160))%nat.

(** [s.lstrip()] *)
Fixpoint lstrip (s : string) : string :=
  match s with
  | String c s' => if isspace c then lstrip s' else s
  | EmptyString => EmptyString
  end.

(** [s.startswith(p)] *)
Definition startswith (s p : string) : bool := String.prefix p s.

Definition newline : string := String "010"%char EmptyString.

End Str.
Export Str.

(** ** The built-in [int]

    [int(s)] for a string [s], as CPython converts it: white space is
    skipped, an optional sign follows, then a run of decimal digits in
    which single underscores may separate digits, then white space to
    the end of the string.  The white space of [int] is not that of
    [str.isspace]: the separators 28 to 31 are not skipped.  CPython
    refuses a run of more than [int_max_str_digits] digits, and does so
    before it looks at what follows the run. *)

Module PyInt.

Definition isspace (c : ascii) : bool :=
  let n := nat_of_ascii c in
  ((9 <=? n) && (n <=? 13) || (n =? 32) || (n =? 133) || (n =? 160))%nat.

Fixpoint skip_space (s : string) : string :=
  match s with
  | String c s' => if isspace c then skip_space s' else s
  | EmptyString => EmptyString
  end.

Definition digit_of (c : ascii) : option Z :=
  let n := nat_of_ascii c in
  if ((48 <=? n) && (n <=? 57))%nat then Some (Z.of_nat n - 48) else None.

(** [digits acc after_digit n s] scans the run of digits and underscores
    at the head of [s], which continues a run whose value so far is
    [acc] and which has [n] digits so far; [after_digit] tells whether
    the previous character was a digit.  It returns the value, the
    number of digits and what follows the run, or nothing when an
    underscore starts the run, follows another or ends the run. *)
Fixpoint digits (acc : Z) (after_digit : bool) (n : nat) (s : string)
  : option (Z * nat * string) :=
  match s with
  | EmptyString =>
      if after_digit || (n =? 0)%nat then Some (acc, n, EmptyString) else None
  | String c s' =>
      if Ascii.eqb c "_" then
        if after_digit then digits acc false n s' else None
      else
        match digit_of c with
        | Some d => digits (10 * acc + d) true (Datatypes.S n) s'
        | None => if after_digit || (n =? 0)%nat then Some (acc, n, s) else None
        end
  end.

Definition int_max_str_digits : nat := 4300.

(** [repr(s)], written with plain quotes; exact for a string without
    quotes, backslashes and unprintable characters. *)
Definition repr (s : string) : string := "'" +:+ s +:+ "'".

Definition invalid_literal (s : string) : exn :=
  ValueError ("invalid literal for int() with base 10: " +:+ repr s).

Definition exceeds_limit (n : nat) : exn :=
  ValueError ("Exceeds the limit (" +:+ pretty (Z.of_nat int_max_str_digits)
              +:+ " digits) for integer string conversion: value has "
              +:+ pretty (Z.of_nat n)
              +:+ " digits; use sys.set_int_max_str_digits() to increase the limit").

Definition int (s : string) : result Z :=
  let body := skip_space s in
  let '(negative, unsigned) :=
    match body with
    | String "-" r => (true, r)
    | String "+" r => (false, r)
    | _ => (false, body)
    end in
  match digits 0 false 0 unsigned with
  | Some (v, n, rest) =>
      if (n =? 0)%nat then Failure (invalid_literal s)
      else if (int_max_str_digits <? n)%nat then Failure (exceeds_limit n)
      else match skip_space rest with
           | EmptyString => Success (if negative then - v else v)
           | String _ _ => Failure (invalid_literal s)
           end
  | None => Failure (invalid_literal s)
  end.

End PyInt.

(** ** The operating system

    The file system, as the two compressors use it, through [open] and
    through [pathlib].  What a name resolves to (a relative or an
    absolute name, a component [..], a link, a device) and what makes
    an operation fail (a missing directory, a regular file in the way,
    the permissions, the length of a name, a full disk) is the system's
    own business: an operation is any function of the state of the file
    system.  A name is the string that the program hands over, as it
    is.

    Two things are built into the types.  Reading a file leaves the
    file system as it is, and so does an [open] that raises.  A [mkdir]
    that raises may have created some of the directories. *)

Definition bytes := list Byte.byte.

Record os : Type := {
  Files : Type;
  Handle : Type;
  (* the objects of [pathlib] *)
  PurePath : Type;
  (* [Path(s)] *)
  Path : string → PurePath;
  (* [p.parent] *)
  parent : PurePath → PurePath;
  (* [str(p)], the name that [p.open] opens *)
  fspath : PurePath → string;
  (* [open(name, 'rb').read()], what a library does with the name of a
     file that it is to load *)
  read_file : string → Files → result bytes;
  (* [p.mkdir(parents=, exist_ok=)] *)
  mkdir : PurePath → bool → bool → Files → Files * result unit;
  (* [open(name, 'wb')] *)
  open_wb : string → Files → result (Files * Handle);
  (* the bytes that a library writes to an open file, and the closing of
     the file at the end of its [with] block: what they leave, and the
     exception of the system that ended them, if any *)
  write_close : Handle → bytes → Files → Files * option exn
}.

(** ** The state of a process

    The file system, the heap of the objects of the library in use, and
    what the program has written to the standard streams. *)

Record world (F H : Type) : Type := World {
  w_fs : F;
  w_heap : H;
  w_stdout : string;
  w_stderr : string
}.
Global Arguments World {F H} _ _ _ _.
Global Arguments w_fs {F H} _.
Global Arguments w_heap {F H} _.
Global Arguments w_stdout {F H} _.
Global Arguments w_stderr {F H} _.

Section Process.
Context {F H : Type}.
Implicit Types (w : world F H).

Definition set_fs (fs : F) w : world F H :=
  World fs (w_heap w) (w_stdout w) (w_stderr w).
Definition set_heap (h : H) w : world F H :=
  World (w_fs w) h (w_stdout w) (w_stderr w).

(** A call into the library: it may change the heap, and it returns
    or raises.  What a library writes to the streams of the process on
    its own account, a warning or a diagnostic, is not in [w_stdout] and
    [w_stderr], which hold what the program printed. *)
Definition call {A} (op : H → H * result A) : M (world F H) A :=
  λ w, let '(h, r) := op (w_heap w) in
       (set_heap h w, match r with Success a => Ok a | Failure e => Raise e end).

(** A call that returns in any case. *)
Definition call_total {A} (op : H → H * A) : M (world F H) A :=
  λ w, let '(h, a) := op (w_heap w) in (set_heap h w, Ok a).

(** An operation of the system that reads the file system. *)
Definition os_get {A} (op : F → result A) : M (world F H) A :=
  λ w, (w, match op (w_fs w) with Success a => Ok a | Failure e => Raise e end).

(** An operation of the system that changes the file system, also when
    it raises. *)
Definition os_do {A} (op : F → F * result A) : M (world F H) A :=
  λ w, let '(fs, r) := op (w_fs w) in
       (set_fs fs w, match r with Success a => Ok a | Failure e => Raise e end).

(** An operation of the system that changes the file system when it
    returns. *)
Definition os_open {A} (op : F → result (F * A)) : M (world F H) A :=
  λ w, match op (w_fs w) with
       | Success (fs, a) => (set_fs fs w, Ok a)
       | Failure e => (w, Raise e)
       end.

(** [print(s)] and [print(s, file=sys.stderr)] *)
Definition print (s : string) : M (world F H) unit :=
  λ w, (World (w_fs w) (w_heap w) (w_stdout w +:+ s +:+ newline) (w_stderr w), Ok tt).
Definition print_err (s : string) : M (world F H) unit :=
  λ w, (World (w_fs w) (w_heap w) (w_stdout w) (w_stderr w +:+ s +:+ newline), Ok tt).

(** [argv[i]] *)
Definition item (argv : list string) (i : nat) : M (world F H) string :=
  match argv !! i with
  | Some a => ret a
  | None => raise (IndexError "list index out of range")
  end.

(** [int(s)] *)
Definition int (s : string) : M (world F H) Z :=
  λ w, (w, match PyInt.int s with Success z => Ok z | Failure e => Raise e end).
End Process.

(** ** The PDF library

    pypdf, as the two compressors use it.  Readers, writers, pages and
    images are handles into the heap of the library; an operation may
    change any object of the heap, whatever handle it is called on, and
    may raise.  The pages of a loaded document are a sequence in memory:
    reading it does not fail; the parsing that the first reading of the
    pages of a reader may still have to do is counted with [PdfReader].
    A document is loaded from the name of its file: the library reads
    the file, which is [read_file] of the system, and parses the bytes,
    which is [PdfReader] or [PdfWriter_clone_from] here. *)

(** What [getattr(page, "images", [])] evaluates to, seen from the loop
    that iterates over it. *)
Inductive images_attr (Image : Type) : Type :=
| NoImages
    (* the page has no such attribute: the default, an empty list *)
| Images (imgs : list Image) (fails : option exn).
    (* the enumeration yields [imgs]; then it ends, or raises *)
Global Arguments NoImages {Image}.
Global Arguments Images {Image} imgs fails.

Record pypdf : Type := {
  Heap : Type;
  Reader : Type;
  Writer : Type;
  Page : Type;
  Image : Type;
  PILImage : Type;
  (* [PdfReader(path)], given the bytes of the file *)
  PdfReader : bytes → Heap → Heap * result Reader;
  (* [reader.pages] *)
  reader_pages : Reader → Heap → list Page;
  (* [PdfWriter()] *)
  PdfWriter : Heap → Heap * result Writer;
  (* [PdfWriter(clone_from=path)], given the bytes of the file *)
  PdfWriter_clone_from : bytes → Heap → Heap * result Writer;
  (* [writer.add_page(page)] *)
  add_page : Writer → Page → Heap → Heap * result unit;
  (* [writer.compress_content_streams()] *)
  writer_compress_content_streams : Writer → Heap → Heap * result unit;
  (* [writer.pages] *)
  writer_pages : Writer → Heap → list Page;
  (* [page.compress_content_streams(level=n)] *)
  compress_content_streams : Page → Z → Heap → Heap * result unit;
  (* [getattr(page, "images", [])] *)
  images : Page → Heap → Heap * images_attr Image;
  (* [img.image] *)
  image : Image → Heap → Heap * result PILImage;
  (* [img.replace(pil, quality=q)] *)
  replace : Image → PILImage → Z → Heap → Heap * result unit;
  (* [writer.compress_identical_objects(remove_identicals=, remove_orphans=)] *)
  compress_identical_objects : Writer → bool → bool → Heap → Heap * result unit;
  (* [writer.write(f)]: the bytes written to [f], and the exception of
     the library that ended the writing, if any *)
  write : Writer → Heap → Heap * (bytes * option exn)
}.

Abbreviation state O L := (world (Files O) (Heap L)).

(** How a block [with open(...) as f: writer.write(f)] ends, the file
    once open: an exception of the system, raised by a write or by the
    closing of the file, comes out of the block; so does, when the
    system raised none, the exception of the library. *)
Definition with_outcome (os_failed failed : option exn) : outcome unit :=
  match os_failed, failed with
  | Some e, _ => Raise e
  | None, Some e => Raise e
  | None, None => Ok tt
  end.

Section Pdf.
Context {O : os} {L : pypdf}.

(** [for page in d.pages], for the sequence that [pages] reads off the
    heap when the loop starts *)
Definition for_pages (pages : Heap L → list (Page L))
    (body : Page L → M (state O L) unit) : M (state O L) unit :=
  let* w := get in for_each (pages (w_heap w)) body.

(** [with open(name, 'wb') as f: writer.write(f)] *)
Definition write_to (writer : Writer L) (name : string) : M (state O L) unit :=
  let* f := os_open (open_wb O name) in
  (λ w, let '(h, (data, failed)) := write L writer (w_heap w) in
        let '(fs, os_failed) := write_close O f data (w_fs w) in
        (World fs h (w_stdout w) (w_stderr w), with_outcome os_failed failed)).
End Pdf.

(** ** [src/python/rdkit_service/pdf_compress.py] *)

Module PdfCompress.
Section PdfCompress.
Context {O : os} {L : pypdf}.

Definition compress_pdf (input_path output_path : string)
    (lossless : bool) (image_quality : option Z) : M (state O L) unit :=
  let src := Path O input_path in
  let dst := Path O output_path in
  let* data := os_get (read_file O (fspath O src)) in
  let* writer := call (PdfWriter_clone_from L data) in

  (* Lossless page stream compression first *)
  (if lossless then
     for_pages (writer_pages L writer) (λ page,
       try_pass (call (compress_content_streams L page 9)))
   else ret tt) ;;;

  (* Optional image quality reduction *)
  match image_quality with
  | Some quality =>
      try_pass
        (for_pages (writer_pages L writer) (λ page,
           let* attr := call_total (images L page) in
           match attr with
           | NoImages => ret tt
           | Images imgs fails =>
               for_each imgs (λ img,
                 try_pass
                   (let* pil := call (image L img) in
                    call (replace L img pil quality))) ;;;
               match fails with
               | Some e => raise e
               | None => ret tt
               end
           end))
  | None => ret tt
  end ;;;

  (* De-duplicate identical objects and drop orphans *)
  try_pass (call (compress_identical_objects L writer true true)) ;;;

  os_do (mkdir O (parent O dst) true true) ;;;
  write_to writer (fspath O dst).

Definition usage : string :=
  "Usage: python pdf_compress.py <input.pdf> <output.pdf> [image_quality]".

Definition main (argv : list string) : M (state O L) Z :=
  if (length argv <? 3)%nat then
    print usage ;;;
    ret 2
  else
    let* input_pdf := item argv 1 in
    let* output_pdf := item argv 2 in
    let* quality :=
      (if (3 <? length argv)%nat
       then let* a := item argv 3 in let* q := int a in ret (Some q)
       else ret None) in
    compress_pdf input_pdf output_pdf true quality ;;;
    ret 0.

(** [if __name__ == "__main__": raise SystemExit(main())] *)
Definition script (argv : list string) : M (state O L) unit :=
  let* code := main argv in sys_exit code.

(** *** The heap after each stage

    What the three best-effort stages of [compress_pdf] do to the heap,
    written without exceptions.  Stage 2 makes the attempt of every
    page, in order, and keeps what each attempt leaves. *)
Definition compress_all (pages : list (Page L)) (h : Heap L) : Heap L :=
  fold_left (λ h0 page, (compress_content_streams L page 9 h0).1) pages h.

(** Stage 3 on one image: the image is decoded, and replaced when the
    decoding returned. *)
Definition recompress_image (quality : Z) (img : Image L) (h : Heap L)
  : Heap L :=
  let '(h1, r) := image L img h in
  match r with
  | Success pil => (replace L img pil quality h1).1
  | Failure _ => h1
  end.

(** Stage 3 on one page, and whether the enumeration of its images
    raised. *)
Definition recompress_page (quality : Z) (page : Page L) (h : Heap L)
  : Heap L * option exn :=
  let '(h1, attr) := images L page h in
  match attr with
  | NoImages => (h1, None)
  | Images imgs fails =>
      (fold_left (λ h0 img, recompress_image quality img h0) imgs h1, fails)
  end.

(** Stage 3: page after page, until an enumeration raises. *)
Fixpoint recompress_pages (quality : Z) (pages : list (Page L))
    (h : Heap L) : Heap L :=
  match pages with
  | [] => h
  | page :: pages' =>
      match recompress_page quality page h with
      | (h1, None) => recompress_pages quality pages' h1
      | (h1, Some _) => h1
      end
  end.

Definition after_stage2 (writer : Writer L) (lossless : bool)
    (h : Heap L) : Heap L :=
  if lossless then compress_all (writer_pages L writer h) h else h.

Definition after_stage3 (writer : Writer L) (image_quality : option Z)
    (h : Heap L) : Heap L :=
  match image_quality with
  | Some quality => recompress_pages quality (writer_pages L writer h) h
  | None => h
  end.

Definition after_stage4 (writer : Writer L) (h : Heap L) : Heap L :=
  (compress_identical_objects L writer true true h).1.

Definition after_stages (writer : Writer L) (lossless : bool)
    (image_quality : option Z) (h1 : Heap L) : Heap L :=
  after_stage4 writer
    (after_stage3 writer image_quality
       (after_stage2 writer lossless h1)).

(** Stage 5 alone. *)
Definition save (writer : Writer L) (dst : PurePath O) : M (state O L) unit :=
  os_do (mkdir O (parent O dst) true true) ;;;
  write_to writer (fspath O dst).

(** The pass-through of the specification: the source is cloned and
    the clone is written, with no stage in between. *)
Definition pass_through (input_path output_path : string)
  : M (state O L) unit :=
  let* data := os_get (read_file O (fspath O (Path O input_path))) in
  let* writer := call (PdfWriter_clone_from L data) in
  save writer (Path O output_path).

(** The de-duplication is not supported by the installed version: the
    writer has no such method, the call raises and touches nothing. *)
Definition dedup_unsupported : Prop :=
  ∀ writer a b h,
    ∃ e, compress_identical_objects L writer a b h = (h, Failure e).
End PdfCompress.
End PdfCompress.

(** ** [src/scripts/compress_pdf.py] *)

Module CompressPdf.
Section CompressPdf.
Context {O : os} {L : pypdf}.

Definition compress_pdf (input_path output_path : string)
  : M (state O L) unit :=
  let* data := os_get (read_file O input_path) in
  let* reader := call (PdfReader L data) in
  let* writer := call (PdfWriter L) in
  for_pages (reader_pages L reader) (λ page,
    call (add_page L writer page)) ;;;
  (* Compress content streams *)
  try_pass (call (writer_compress_content_streams L writer)) ;;;
  write_to writer output_path.

Definition usage : string :=
  "Usage: compress_pdf.py <input.pdf> <output.pdf>".

Definition main (argv : list string) : M (state O L) unit :=
  (if negb (length argv =? 3)%nat then
     print_err usage ;;;
     sys_exit 1
   else ret tt) ;;;
  let* in_pdf := item argv 1 in
  let* out_pdf := item argv 2 in
  compress_pdf in_pdf out_pdf.

(** [if __name__ == '__main__': main()] *)
Definition script (argv : list string) : M (state O L) unit := main argv.

(** *** The heap after the copy of the pages

    Step 2 of [compress_pdf] on the heap: the pages are added one after
    the other, until an [add_page] raises. *)
Fixpoint add_pages (writer : Writer L) (pages : list (Page L)) (h : Heap L)
  : Heap L * option exn :=
  match pages with
  | [] => (h, None)
  | page :: pages' =>
      match add_page L writer page h with
      | (h1, Success _) => add_pages writer pages' h1
      | (h1, Failure e) => (h1, Some e)
      end
  end.

(** *** What the pipeline expects of the library

    [content page h] is the decoded content of a page and
    [doc_contents writer h] the decoded contents of the pages of the
    document of a writer, in order.  A new writer has no page and
    [add_page] appends a page with the content of the page it is given;
    neither touches the pages of a reader.  Compressing the content
    streams, even when it raises, keeps the decoded contents. *)
Record page_copying {C : Type} (content : Page L → Heap L → C)
    (doc_contents : Writer L → Heap L → list C) : Prop := {
  new_writer_empty : ∀ h h' writer,
    PdfWriter L h = (h', Success writer) → doc_contents writer h' = [];
  new_writer_frame : ∀ h h' r reader,
    PdfWriter L h = (h', r) →
    reader_pages L reader h' = reader_pages L reader h ∧
    ∀ page, page ∈ reader_pages L reader h → content page h' = content page h;
  add_page_appends : ∀ writer page h h' u,
    add_page L writer page h = (h', Success u) →
    doc_contents writer h' = doc_contents writer h ++ [content page h];
  add_page_frame : ∀ writer page h h' r reader h0 page',
    add_page L writer page h = (h', r) →
    page' ∈ reader_pages L reader h0 →
    content page' h' = content page' h;
  compress_keeps : ∀ writer h h' r,
    writer_compress_content_streams L writer h = (h', r) →
    doc_contents writer h' = doc_contents writer h
}.
End CompressPdf.
End CompressPdf.

(** ** What the compressors expect of the system

    [is_dir fs p] tells that [p] names a directory.  A [mkdir] that
    returns has made its path a directory; a directory lies in a
    directory; and opening a file, writing it and closing it remove no
    directory. *)
Record directories (O : os) (is_dir : Files O → PurePath O → Prop) : Prop := {
  mkdir_makes : ∀ p parents exist_ok fs fs' u,
    mkdir O p parents exist_ok fs = (fs', Success u) → is_dir fs' p;
  dir_in_dir : ∀ p fs, is_dir fs p → is_dir fs (parent O p);
  open_keeps : ∀ name fs fs' f p,
    open_wb O name fs = Success (fs', f) → is_dir fs p → is_dir fs' p;
  write_keeps : ∀ f data fs p,
    is_dir fs p → is_dir (write_close O f data fs).1 p
}.

(** [no_parent fs name] tells that the directory in which [name] lies
    does not exist.  The system then refuses to open [name] for
    writing. *)
Definition no_parent_no_open (O : os) (no_parent : Files O → string → Prop)
  : Prop :=
  ∀ name fs, no_parent fs name → ∃ e, open_wb O name fs = Failure e.

(** ** The exit status of a process

    A script that runs to its end exits with 0, [SystemExit(code)] exits
    with [code], and an exception that nothing catches makes the
    interpreter print a traceback and exit with 1.  The traceback is not
    part of [w_stderr], which holds what the program itself printed. *)
Definition exit_status {A} (o : outcome A) : Z :=
  match o with
  | Ok _ => 0
  | Raise _ => 1
  | Exit code => code
  end.


(** ** The chemistry library

    RDKit, as the two renderers use it. *)

Record rdkit : Type := {
  RHeap : Type;
  Mol : Type;
  Drawer : Type;
  (* [Chem.MolFromSmiles(smiles)]; [None] for a string that does not parse *)
  MolFromSmiles : string → RHeap → RHeap * result (option Mol);
  (* [Draw.MolDraw2DSVG(width, height)] *)
  MolDraw2DSVG : Z → Z → RHeap → RHeap * result Drawer;
  (* [d2d.DrawMolecule(mol)] *)
  DrawMolecule : Drawer → Mol → RHeap → RHeap * result unit;
  (* [d2d.FinishDrawing()] *)
  FinishDrawing : Drawer → RHeap → RHeap * result unit;
  (* [d2d.GetDrawingText()] *)
  GetDrawingText : Drawer → RHeap → RHeap * result string
}.

(** The calls that the two renderers make in turn, on the heap: the
    heap they leave, and the text of the drawing or the exception that
    ended them. *)
Definition drawing (R : rdkit) (smiles : string) (width height : Z)
    (h : RHeap R) : RHeap R * result string :=
  match MolFromSmiles R smiles h with
  | (h1, Failure e) => (h1, Failure e)
  | (h1, Success None) => (h1, Failure (ValueError "Invalid SMILES"))
  | (h1, Success (Some mol)) =>
      match MolDraw2DSVG R width height h1 with
      | (h2, Failure e) => (h2, Failure e)
      | (h2, Success d2d) =>
          match DrawMolecule R d2d mol h2 with
          | (h3, Failure e) => (h3, Failure e)
          | (h3, Success _) =>
              match FinishDrawing R d2d h3 with
              | (h4, Failure e) => (h4, Failure e)
              | (h4, Success _) => GetDrawingText R d2d h4
              end
          end
      end
  end.

(** ** [src/server/chem/render.py]

    The script imports RDKit when it starts; the import is taken to
    succeed. *)

Module Render.
Section Render.
Context {F : Type} {R : rdkit}.

Definition smiles_to_svg (smiles : string) (width height : Z)
  : M (world F (RHeap R)) string :=
  let* mol := call (MolFromSmiles R smiles) in
  match mol with
  | None => raise (ValueError "Invalid SMILES")
  | Some mol =>
      let* d2d := call (MolDraw2DSVG R width height) in
      call (DrawMolecule R d2d mol) ;;;
      call (FinishDrawing R d2d) ;;;
      let* svg := call (GetDrawingText R d2d) in
      ret svg
  end.

Definition usage : string :=
  "Usage: python render.py <SMILES> [WIDTH] [HEIGHT]".

Definition dquote : string := String "034"%char EmptyString.

(** The XML declaration, with its line break. *)
Definition xml_header : string :=
  "<?xml version=" +:+ dquote +:+ "1.0" +:+ dquote
  +:+ " encoding=" +:+ dquote +:+ "UTF-8" +:+ dquote +:+ "?>" +:+ newline.

Definition main (argv : list string) : M (world F (RHeap R)) Z :=
  if (length argv <? 2)%nat then
    print_err usage ;;;
    ret 2
  else
    let* smiles := item argv 1 in
    let* w := (if (2 <? length argv)%nat
               then let* a := item argv 2 in int a else ret 400) in
    let* h := (if (3 <? length argv)%nat
               then let* a := item argv 3 in int a else ret 300) in
    try_except
      (let* svg := smiles_to_svg smiles w h in
       (* ensure xml header exists *)
       let svg := if negb (startswith (lstrip svg) "<?xml")
                  then xml_header +:+ svg else svg in
       print svg ;;;
       ret 0)
      (λ exc,
         print_err ("ERROR: " +:+ str exc) ;;;
         ret 1).

(** [if __name__ == "__main__": sys.exit(main(sys.argv))] *)
Definition script (argv : list string) : M (world F (RHeap R)) unit :=
  let* code := main argv in sys_exit code.
End Render.
End Render.

(** ** [src/python/rdkit_service/main.py] *)

Module Service.

(** [fastapi.responses.Response]; [status_code] is 200 unless given. *)
Record Response : Type := {
  content : string;
  status_code : Z;
  media_type : string
}.

(** What the client receives. *)
Inductive body : Type :=
| Raw (text : string)            (* the content of a [Response] *)
| JsonDetail (detail : string)   (* the JSON object with the one key [detail] *)
| InternalServerError.

Record reply : Type := {
  status : Z;
  content_type : string;
  payload : body
}.

(** How FastAPI answers with the outcome of a path operation: a returned
    [Response] is sent as it is, an [HTTPException] becomes a JSON error
    with its status code, and any other exception becomes a 500. *)
Definition respond (o : outcome Response) : reply :=
  match o with
  | Ok r =>
      {| status := status_code r; content_type := media_type r;
         payload := Raw (content r) |}
  | Raise (HTTPException c d) =>
      {| status := c; content_type := "application/json";
         payload := JsonDetail d |}
  | _ =>
      {| status := 500; content_type := "text/plain; charset=utf-8";
         payload := InternalServerError |}
  end.

Section Service.
Context {F : Type} {R : rdkit}.

(** [@app.get("/svg")] *)
Definition svg (smiles : string) : M (world F (RHeap R)) Response :=
  try_except
    (let* mol := call (MolFromSmiles R smiles) in
     match mol with
     | None => raise (ValueError "Invalid SMILES")
     | Some mol =>
         let* d2d := call (MolDraw2DSVG R 400 300) in
         call (DrawMolecule R d2d mol) ;;;
         call (FinishDrawing R d2d) ;;;
         let* svg := call (GetDrawingText R d2d) in
         ret {| content := svg; status_code := 200;
                media_type := "image/svg+xml" |}
     end)
    (λ e, raise (HTTPException 400 (str e))).

(** [GET /svg?smiles=...] *)
Definition get_svg (smiles : string) (w : world F (RHeap R)) : reply :=
  respond (run (svg smiles) w).2.
End Service.
End Service.

(** ** A small file system

    A test double for the operating system, small enough to run the
    programs on it: a tree of directories and regular files, in which
    every name is resolved from the root of the tree and a component
    [..] is a name like any other. *)

Module Tree.

Definition path := list string.

#[warnings="-register-all"]
Inductive node : Type :=
| File (data : bytes)
| Dir (entries : gmap string node).

(** The entries of the root directory. *)
Abbreviation fs := (gmap string node).

(** [s.split(sep)] for a one-character separator *)
Fixpoint split_on (sep : ascii) (s : string) : list string :=
  match s with
  | EmptyString => [EmptyString]
  | String c s' =>
      if Ascii.eqb c sep then EmptyString :: split_on sep s'
      else match split_on sep s' with
           | w :: ws => String c w :: ws
           | [] => [String c EmptyString]
           end
  end.

(** The components of a name, without the empty ones and the single
    dots. *)
Definition Path (s : string) : path :=
  filter (λ c, c ≠ "" ∧ c ≠ ".") (split_on "/" s).

Definition parent (p : path) : path := removelast p.

Definition fspath (p : path) : string := String.concat "/" p.

(** What the walk along a path finds. *)
Inductive found : Type :=
| IsFile (data : bytes)
| IsDir (entries : fs)
| Missing          (* ENOENT: a component does not exist *)
| NotADir.         (* ENOTDIR: a component before the last is a regular file *)

Fixpoint walk (es : fs) (p : path) : found :=
  match p with
  | [] => IsDir es
  | c :: p' =>
      match es !! c with
      | None => Missing
      | Some (File data) => match p' with [] => IsFile data | _ => NotADir end
      | Some (Dir es') => walk es' p'
      end
  end.

Definition is_dir (es : fs) (p : path) : bool :=
  match walk es p with IsDir _ => true | _ => false end.

Definition is_file (es : fs) (p : path) : bool :=
  match walk es p with IsFile _ => true | _ => false end.

Definition read (es : fs) (p : path) : option bytes :=
  match walk es p with IsFile data => Some data | _ => None end.

(** No regular file lies at [p] or on the way to it. *)
Fixpoint no_file_along (es : fs) (p : path) : bool :=
  match p with
  | [] => true
  | c :: p' =>
      match es !! c with
      | None => true
      | Some (File _) => false
      | Some (Dir es') => no_file_along es' p'
      end
  end.

Definition ENOENT : exn := FileNotFoundError "[Errno 2] No such file or directory".
Definition EEXIST : exn := FileExistsError "[Errno 17] File exists".
Definition ENOTDIR : exn := NotADirectoryError "[Errno 20] Not a directory".
Definition EISDIR : exn := IsADirectoryError "[Errno 21] Is a directory".

Definition read_file (es : fs) (p : path) : result bytes :=
  match walk es p with
  | IsFile data => Success data
  | IsDir _ => Failure EISDIR
  | Missing => Failure ENOENT
  | NotADir => Failure ENOTDIR
  end.

(** Every missing directory along [p] is created; a directory that
    exists is left as it is; a regular file in the way is an error, and
    then nothing is created. *)
Fixpoint mkdir_parents (es : fs) (p : path) : result fs :=
  match p with
  | [] => Success es
  | c :: p' =>
      match es !! c with
      | Some (File _) =>
          Failure (match p' with [] => EEXIST | _ => ENOTDIR end)
      | Some (Dir es') =>
          match mkdir_parents es' p' with
          | Success es'' => Success (<[c := Dir es'']> es)
          | Failure e => Failure e
          end
      | None =>
          match mkdir_parents ∅ p' with
          | Success es'' => Success (<[c := Dir es'']> es)
          | Failure e => Failure e
          end
      end
  end.

Definition mkdir (p : path) (parents exist_ok : bool) (es : fs)
  : fs * result unit :=
  if negb exist_ok && negb (match walk es p with Missing => true | _ => false end)
  then (es, Failure EEXIST)
  else if negb parents && negb (is_dir es (parent p))
  then (es, Failure ENOENT)
  else match mkdir_parents es p with
       | Success es' => (es', Success tt)
       | Failure e => (es, Failure e)
       end.

(** The regular file at [p] is created, or truncated when it exists;
    the directory that holds it has to exist. *)
Fixpoint open_wb (es : fs) (p : path) : result fs :=
  match p with
  | [] => Failure EISDIR
  | c :: p' =>
      match p' with
      | [] =>
          match es !! c with
          | Some (Dir _) => Failure EISDIR
          | _ => Success (<[c := File []]> es)
          end
      | _ :: _ =>
          match es !! c with
          | None => Failure ENOENT
          | Some (File _) => Failure ENOTDIR
          | Some (Dir es') =>
              match open_wb es' p' with
              | Success es'' => Success (<[c := Dir es'']> es)
              | Failure e => Failure e
              end
          end
      end
  end.

(** What a write leaves in the regular file at [p], opened before. *)
Fixpoint store (es : fs) (p : path) (data : bytes) : fs :=
  match p with
  | [] => es
  | c :: p' =>
      match p' with
      | [] =>
          match es !! c with
          | Some (File _) => <[c := File data]> es
          | _ => es
          end
      | _ :: _ =>
          match es !! c with
          | Some (Dir es') => <[c := Dir (store es' p' data)]> es
          | _ => es
          end
      end
  end.

End Tree.

(** The small file system as a system: an open file is known by its
    path, and no write fails. *)
Module ToyOS.

Definition sys : os := {|
  Files := Tree.fs;
  Handle := Tree.path;
  PurePath := Tree.path;
  Path := Tree.Path;
  parent := Tree.parent;
  fspath := Tree.fspath;
  read_file name es := Tree.read_file es (Tree.Path name);
  mkdir := Tree.mkdir;
  open_wb name es :=
    match Tree.open_wb es (Tree.Path name) with
    | Success es' => Success (es', Tree.Path name)
    | Failure e => Failure e
    end;
  write_close f data es := (Tree.store es f data, None)
|}.

End ToyOS.

(** ** Two small libraries

    Instances of the two interfaces, small enough to run the programs on
    them: they serve as test doubles, with faults injected. *)

Module ToyPdf.

(** A page is one byte of content and a mark telling whether its stream
    is compressed.  The heap holds the pages of the source that a reader
    parsed and the pages of the document that a writer builds. *)
Record heap : Type := {
  src : list Byte.byte;
  doc : list (Byte.byte * bool)
}.

Inductive page : Type :=
| SrcPage (i : nat)
| DocPage (i : nat).

Definition AttributeError (msg : string) : exn := PyExc "AttributeError" msg.
Definition EmptyFileError : exn := PyExc "EmptyFileError" "Cannot read an empty file".
Definition PdfStreamError : exn := PyExc "PdfStreamError" "Stream has ended unexpectedly".

(** The content bytes with a meaning: a page [f] cannot be compressed, a
    page [i] holds one image, the images of a page [j] cannot be
    enumerated, and the image of a page [k] cannot be decoded. *)
Definition b_f : Byte.byte := Byte.x66.
Definition b_i : Byte.byte := Byte.x69.
Definition b_j : Byte.byte := Byte.x6a.
Definition b_k : Byte.byte := Byte.x6b.
Definition b_q : Byte.byte := Byte.x71.
Definition b_z : Byte.byte := Byte.x7a.

Definition pages_of {A} (l : list A) (mk : nat → page) : list page :=
  map mk (seq 0 (length l)).

Definition lib : pypdf := {|
  Heap := heap;
  Reader := unit;
  Writer := unit;
  Page := page;
  Image := nat;
  PILImage := unit;
  PdfReader data h :=
    match data with
    | [] => (h, Failure EmptyFileError)
    | _ => ({| src := data; doc := doc h |}, Success tt)
    end;
  reader_pages _ h := pages_of (src h) SrcPage;
  PdfWriter h := ({| src := src h; doc := [] |}, Success tt);
  PdfWriter_clone_from data h :=
    match data with
    | [] => (h, Failure EmptyFileError)
    | _ => ({| src := src h; doc := map (λ b, (b, false)) data |}, Success tt)
    end;
  add_page _ p h :=
    match p with
    | SrcPage i =>
        match src h !! i with
        | Some b => ({| src := src h; doc := doc h ++ [(b, false)] |}, Success tt)
        | None => (h, Failure (IndexError "sequence index out of range"))
        end
    | DocPage _ => (h, Failure (ValueError "page belongs to the writer"))
    end;
  writer_compress_content_streams _ h :=
    (h, Failure (AttributeError
       "'PdfWriter' object has no attribute 'compress_content_streams'"));
  writer_pages _ h := pages_of (doc h) DocPage;
  compress_content_streams p _ h :=
    match p with
    | DocPage i =>
        match doc h !! i with
        | Some (b, _) =>
            if Byte.eqb b b_f then (h, Failure PdfStreamError)
            else ({| src := src h; doc := <[i := (b, true)]> (doc h) |}, Success tt)
        | None => (h, Failure (IndexError "sequence index out of range"))
        end
    | SrcPage _ => (h, Success tt)
    end;
  images p h :=
    match p with
    | DocPage i =>
        match doc h !! i with
        | Some (b, _) =>
            if Byte.eqb b b_i || Byte.eqb b b_k then (h, Images [i] None)
            else if Byte.eqb b b_j then (h, Images [] (Some PdfStreamError))
            else (h, NoImages)
        | None => (h, NoImages)
        end
    | SrcPage _ => (h, NoImages)
    end;
  image i h :=
    match doc h !! i with
    | Some (b, _) =>
        if Byte.eqb b b_k then (h, Failure (PyExc "UnidentifiedImageError" "cannot identify image file"))
        else (h, Success tt)
    | None => (h, Failure (IndexError "sequence index out of range"))
    end;
  replace i _ _ h :=
    match doc h !! i with
    | Some (_, c) => ({| src := src h; doc := <[i := (b_q, c)]> (doc h) |}, Success tt)
    | None => (h, Failure (IndexError "sequence index out of range"))
    end;
  compress_identical_objects _ _ _ h :=
    (h, Failure (AttributeError
       "'PdfWriter' object has no attribute 'compress_identical_objects'"));
  write _ h :=
    (h, (flat_map (λ '(b, c), if c : bool then [b; b_z] else [b]) (doc h), None))
|}.

(** The decoded content of a page, and the decoded contents of the pages
    of the document of a writer, in order. *)
Definition content (p : page) (h : heap) : option Byte.byte :=
  match p with
  | SrcPage i => src h !! i
  | DocPage i => fst <$> doc h !! i
  end.
Definition doc_contents (_ : unit) (h : heap) : list (option Byte.byte) :=
  map (λ '(b, _), Some b) (doc h).

Definition heap0 : heap := {| src := []; doc := [] |}.

(** A file system with a source of four pages, [a f i b], in [in.pdf],
    and a world on it. *)
Definition source : bytes := [Byte.x61; b_f; b_i; Byte.x62].
Definition fs0 : Tree.fs := {[ "in.pdf" := Tree.File source ]}.
Definition world0 : world Tree.fs heap := World fs0 heap0 "" "".

End ToyPdf.

Module ToyChem.

Definition known : list string := ["CCO"; "c1ccccc1"; "C"; "O"].

(** The text of a drawing starts with [head]; the string [boom] makes
    the parser raise. *)
Definition lib (head : string) : rdkit := {|
  RHeap := unit;
  Mol := string;
  Drawer := Z * Z * string;
  MolFromSmiles s h :=
    if String.eqb s "boom"
    then (h, Failure (PyExc "RuntimeError" "Pre-condition Violation"))
    else (h, Success (if bool_decide (s ∈ known) then Some s else None));
  MolDraw2DSVG width height h := (h, Success (width, height, ""));
  DrawMolecule d mol h := (h, Success tt);
  FinishDrawing d h := (h, Success tt);
  GetDrawingText d h :=
    (h, Success (head +:+ "<svg width='" +:+ pretty d.1.1 +:+ "px' height='"
                 +:+ pretty d.1.2 +:+ "px'></svg>"))
|}.

Definition world0 : world unit unit := World tt tt "" "".

End ToyChem.

(** ** [src/server/chem/render.py], from its first line

    The script as the interpreter runs it: the import of RDKit under its
    guard (lines 4 to 9), then, the import done, the call of [main]
    (lines 42 and 43).  [imported] is what the import does: it returns,
    or it raises. *)

Module RenderScript.
Section RenderScript.
Context {F : Type} {R : rdkit}.

(** [from rdkit import Chem] and [from rdkit.Chem import Draw] *)
Definition import_rdkit (imported : result unit) : M (world F (RHeap R)) unit :=
  λ w, (w, match imported with Success _ => Ok tt | Failure e => Raise e end).

Definition program (imported : result unit) (argv : list string)
  : M (world F (RHeap R)) unit :=
  try_except (import_rdkit imported)
    (λ exc,
       print_err ("ERROR: rdkit import failed: " +:+ str exc) ;;;
       sys_exit 2) ;;;
  Render.script argv.
End RenderScript.
End RenderScript.

(** ** A library whose writing fails

    [with_write L wr] is the library [L] with [wr] for its [write]. *)
Definition with_write (L : pypdf)
    (wr : Writer L → Heap L → Heap L * (bytes * option exn)) : pypdf := {|
  Heap := Heap L;
  Reader := Reader L;
  Writer := Writer L;
  Page := Page L;
  Image := Image L;
  PILImage := PILImage L;
  PdfReader := PdfReader L;
  reader_pages := reader_pages L;
  PdfWriter := PdfWriter L;
  PdfWriter_clone_from := PdfWriter_clone_from L;
  add_page := add_page L;
  writer_compress_content_streams := writer_compress_content_streams L;
  writer_pages := writer_pages L;
  compress_content_streams := compress_content_streams L;
  images := images L;
  image := image L;
  replace := replace L;
  compress_identical_objects := compress_identical_objects L;
  write := wr
|}.

Module ToyTorn.

Definition PdfWriteError : exn := PyExc "PdfReadError" "Could not find object".

(** The writing stops after the first page. *)
Definition lib : pypdf :=
  with_write ToyPdf.lib
    (λ _ h, (h, (take 1 (map fst (ToyPdf.doc h)), Some PdfWriteError))).

End ToyTorn.

(** ** A disk that fills up

    [ToyOS.sys] with room for [room] bytes in a file: what goes beyond is
    not written, and the writing raises. *)
Module ToyFull.

Definition ENOSPC : exn := PyExc "OSError" "[Errno 28] No space left on device".

Definition sys (room : nat) : os := {|
  Files := Files ToyOS.sys;
  Handle := Handle ToyOS.sys;
  PurePath := PurePath ToyOS.sys;
  Path := Path ToyOS.sys;
  parent := parent ToyOS.sys;
  fspath := fspath ToyOS.sys;
  read_file := read_file ToyOS.sys;
  mkdir := mkdir ToyOS.sys;
  open_wb := open_wb ToyOS.sys;
  write_close f data es :=
    (Tree.store es f (take room data),
     if (room <? length data)%nat then Some ENOSPC else None)
|}.

End ToyFull.

Module ToyImages.

(** A source of three pages: one image, an enumeration that raises, one
    image. *)
Definition source : bytes := [ToyPdf.b_i; ToyPdf.b_j; ToyPdf.b_i].
Definition world0 : world Tree.fs ToyPdf.heap :=
  World {[ "j.pdf" := Tree.File source ]} ToyPdf.heap0 "" "".

End ToyImages.

(** ** A library that refuses a page

    [with_add_page L ap] is the library [L] with [ap] for its
    [add_page]. *)
Definition with_add_page (L : pypdf)
    (ap : Writer L → Page L → Heap L → Heap L * result unit) : pypdf := {|
  Heap := Heap L;
  Reader := Reader L;
  Writer := Writer L;
  Page := Page L;
  Image := Image L;
  PILImage := PILImage L;
  PdfReader := PdfReader L;
  reader_pages := reader_pages L;
  PdfWriter := PdfWriter L;
  PdfWriter_clone_from := PdfWriter_clone_from L;
  add_page := ap;
  writer_compress_content_streams := writer_compress_content_streams L;
  writer_pages := writer_pages L;
  compress_content_streams := compress_content_streams L;
  images := images L;
  image := image L;
  replace := replace L;
  compress_identical_objects := compress_identical_objects L;
  write := write L
|}.

Module ToyRefusing.

Definition PdfReadError : exn := PyExc "PdfReadError" "Invalid page object".

(** A page [f] of the source cannot be added. *)
Definition lib : pypdf :=
  with_add_page ToyPdf.lib
    (λ writer page h,
       match ToyPdf.content page h with
       | Some b =>
           if Byte.eqb b ToyPdf.b_f then (h, Failure PdfReadError)
           else add_page ToyPdf.lib writer page h
       | None => add_page ToyPdf.lib writer page h
       end).

End ToyRefusing.
(** ** Examples of the built-ins *)

Example int_50 : PyInt.int "50" = Success 50.
Proof. reflexivity. Qed.

Example int_padded : PyInt.int ("  -1_000" +:+ Str.newline) = Success (-1000).
Proof. reflexivity. Qed.

Example int_abc : PyInt.int "abc" = Failure (PyInt.invalid_literal "abc").
Proof. reflexivity. Qed.

Example int_empty : PyInt.int "" = Failure (PyInt.invalid_literal "").
Proof. reflexivity. Qed.

Example int_float : PyInt.int "7.5" = Failure (PyInt.invalid_literal "7.5").
Proof. reflexivity. Qed.

Example int_sign_space : PyInt.int "- 5" = Failure (PyInt.invalid_literal "- 5").
Proof. reflexivity. Qed.

Example int_underscores :
  PyInt.int "1__0" = Failure (PyInt.invalid_literal "1__0") ∧
  PyInt.int "10_" = Failure (PyInt.invalid_literal "10_") ∧
  PyInt.int "_10" = Failure (PyInt.invalid_literal "_10").
Proof. repeat split. Qed.

(** The unit separator, code point 31, is white space for [str.lstrip]
    and not for [int]. *)
Example lstrip_separator : lstrip (String "031"%char "50") = "50".
Proof. reflexivity. Qed.

Example int_separator :
  PyInt.int (String "031"%char "50")
  = Failure (PyInt.invalid_literal (String "031"%char "50")).
Proof. reflexivity. Qed.

Example int_no_break_space : PyInt.int (String "160"%char "50") = Success 50.
Proof. reflexivity. Qed.

(** ** Examples of the small file system *)

Example Path_relative :
  Tree.Path "build/out/./doc.pdf" = ["build"; "out"; "doc.pdf"].
Proof. reflexivity. Qed.

Example Path_parent_bare : Tree.parent (Tree.Path "doc.pdf") = [].
Proof. reflexivity. Qed.

Example mkdir_parents_creates :
  Tree.mkdir_parents ∅ ["a"; "b"]
  = Success {[ "a" := Tree.Dir {[ "b" := Tree.Dir ∅ ]} ]}.
Proof. reflexivity. Qed.

Example open_wb_missing_parent :
  Tree.open_wb ∅ ["a"; "doc.pdf"] = Failure Tree.ENOENT.
Proof. reflexivity. Qed.

(** ** Facts about the monad *)

Section MonadFacts.
Context {S : Type}.
Implicit Types (s : S).

Lemma run_bind {A B} (m : M S A) (k : A → M S B) s :
  run (bind m k) s =
  match run m s with
  | (s', Ok a) => run (k a) s'
  | (s', Raise e) => (s', Raise e)
  | (s', Exit c) => (s', Exit c)
  end.
Proof. reflexivity. Qed.

Lemma run_ret {A} (a : A) s : run (ret a) s = (s, Ok a).
Proof. reflexivity. Qed.




(** A guarded block returns whenever its body returns or raises. *)
Lemma run_try_pass (body : M S unit) s :
  (∀ c, (run body s).2 ≠ Exit c) →
  run (try_pass body) s = ((run body s).1, Ok tt).
Proof.
  intros Hne. unfold try_pass, try_except, run in *.
  destruct (body s) as [s' [[]|e|c]]; simpl; try reflexivity.
  exfalso. apply (Hne c). reflexivity.
Qed.

(** A loop whose body always returns runs the body on every item, in
    order, and returns. *)
Lemma run_for_each {A} (step : A → S → S) (body : A → M S unit) xs s :
  (∀ x s0, run (body x) s0 = (step x s0, Ok tt)) →
  run (for_each xs body) s = (fold_left (λ s0 x, step x s0) xs s, Ok tt).
Proof.
  intros Hbody. revert s.
  induction xs as [|x xs IH]; intros s; simpl; [reflexivity|].
  rewrite run_bind, Hbody. apply IH.
Qed.
End MonadFacts.

Section ProcessFacts.
Context {F H : Type}.
Implicit Types (w : world F H).

Lemma set_heap_heap w : set_heap (w_heap w) w = w.
Proof. destruct w; reflexivity. Qed.

Lemma run_call {A} (op : H → H * result A) w :
  run (call op) w =
  (set_heap (op (w_heap w)).1 w,
   match (op (w_heap w)).2 with Success a => Ok a | Failure e => Raise e end).
Proof. unfold run, call. destruct (op (w_heap w)); reflexivity. Qed.

Lemma run_os_get {A} (op : F → result A) w :
  run (os_get op) w
  = (w, match op (w_fs w) with Success a => Ok a | Failure e => Raise e end).
Proof. reflexivity. Qed.

Lemma run_os_do {A} (op : F → F * result A) w :
  run (os_do op) w
  = (set_fs (op (w_fs w)).1 w,
     match (op (w_fs w)).2 with Success a => Ok a | Failure e => Raise e end).
Proof. unfold run, os_do. destruct (op (w_fs w)); reflexivity. Qed.

Lemma run_os_open {A} (op : F → result (F * A)) w :
  run (os_open op) w
  = match op (w_fs w) with
    | Success (fs, a) => (set_fs fs w, Ok a)
    | Failure e => (w, Raise e)
    end.
Proof. reflexivity. Qed.

Lemma run_item (argv : list string) (i : nat) (a : string) w :
  argv !! i = Some a → run (item argv i) w = (w, Ok a).
Proof. intros Ha. unfold item. rewrite Ha. reflexivity. Qed.

Lemma run_int (s : string) w :
  run (int s) w
  = (w, match PyInt.int s with Success z => Ok z | Failure e => Raise e end).
Proof. reflexivity. Qed.

Lemma run_call_total {A} (op : H → H * A) w :
  run (call_total op) w = (set_heap (op (w_heap w)).1 w, Ok (op (w_heap w)).2).
Proof. unfold run, call_total. destruct (op (w_heap w)); reflexivity. Qed.

(** A guarded call returns, whatever the call does; the heap is what
    the call left. *)
Lemma run_try_pass_call (op : H → H * result unit) w :
  run (try_pass (call op)) w = (set_heap (op (w_heap w)).1 w, Ok tt).
Proof.
  rewrite run_try_pass; rewrite run_call; [reflexivity|].
  intros c. simpl. destruct (op (w_heap w)).2; discriminate.
Qed.
End ProcessFacts.

(** What [int] raises is a [ValueError]. *)
Lemma int_raises_ValueError (s : string) (e : exn) :
  PyInt.int s = Failure e → exn_class e = "ValueError".
Proof.
  unfold PyInt.int.
  destruct (match PyInt.skip_space s with
            | String "-" r => (true, r)
            | String "+" r => (false, r)
            | _ => (false, PyInt.skip_space s)
            end) as [negative unsigned].
  destruct (PyInt.digits 0 false 0 unsigned) as [[[v n] rest]|].
  - destruct (n =? 0)%nat; [intros [= <-]; reflexivity|].
    destruct (PyInt.int_max_str_digits <? n)%nat; [intros [= <-]; reflexivity|].
    destruct (PyInt.skip_space rest); [discriminate|].
    intros [= <-]. reflexivity.
  - intros [= <-]. reflexivity.
Qed.

(** A text that starts with [<?xml] has no leading white space. *)
Lemma startswith_xml_lstrip (s : string) :
  startswith s "<?xml" = true → lstrip s = s.
Proof.
  unfold startswith. destruct s as [|c s]; [reflexivity|].
  change (String.prefix "<?xml" (String c s))
    with (if ascii_dec "<" c then String.prefix "?xml" s else false).
  destruct (ascii_dec "<" c) as [<-|]; [reflexivity|discriminate].
Qed.

(** ** Facts about the small file system *)

Section TreeFacts.
Import Tree.
Implicit Types (es : fs) (p q d : path) (c name : string).

Lemma is_dir_cons es c p :
  is_dir es (c :: p) =
  match es !! c with
  | Some (Dir es') => is_dir es' p
  | _ => false
  end.
Proof.
  unfold is_dir. simpl.
  destruct (es !! c) as [[data|es']|]; [destruct p| |]; reflexivity.
Qed.

Lemma parent_cons_cons c c' p : parent (c :: c' :: p) = c :: parent (c' :: p).
Proof. reflexivity. Qed.

(** Opening a file for writing fails when its directory does not
    exist, with ENOENT or ENOTDIR. *)
Lemma open_wb_no_parent es p :
  is_dir es (parent p) = false →
  open_wb es p = Failure ENOENT ∨ open_wb es p = Failure ENOTDIR.
Proof.
  revert es. induction p as [|c p IH]; intros es Hd; [discriminate|].
  destruct p as [|c' p]; [discriminate|].
  rewrite parent_cons_cons, is_dir_cons in Hd.
  change (open_wb es (c :: c' :: p)) with
    (match es !! c with
     | None => Failure ENOENT
     | Some (File _) => Failure ENOTDIR
     | Some (Dir es') =>
         match open_wb es' (c' :: p) with
         | Success es'' => Success (<[c := Dir es'']> es)
         | Failure e => Failure e
         end
     end).
  destruct (es !! c) as [[data|es1]|] eqn:Hc; [right; reflexivity | | left; reflexivity].
  destruct (IH es1 Hd) as [H1|H1]; rewrite H1; [left|right]; reflexivity.
Qed.

(** A directory lies in directories. *)
Lemma is_dir_prefix es d q : is_dir es (d ++ q) = true → is_dir es d = true.
Proof.
  revert es. induction d as [|c d IH]; intros es Hd; [reflexivity|].
  rewrite <- app_comm_cons in Hd. rewrite is_dir_cons in *.
  destruct (es !! c) as [[data1|es1]|]; try discriminate. eauto.
Qed.

Lemma open_wb_cons_cons es c c' p :
  open_wb es (c :: c' :: p) =
  match es !! c with
  | None => Failure ENOENT
  | Some (File _) => Failure ENOTDIR
  | Some (Dir es') =>
      match open_wb es' (c' :: p) with
      | Success es'' => Success (<[c := Dir es'']> es)
      | Failure e => Failure e
      end
  end.
Proof. reflexivity. Qed.

Lemma store_cons_cons es c c' p data :
  store es (c :: c' :: p) data =
  match es !! c with
  | Some (Dir es') => <[c := Dir (store es' (c' :: p) data)]> es
  | _ => es
  end.
Proof. reflexivity. Qed.

(** Opening a file for writing creates no directory and removes none. *)
Lemma open_wb_is_dir es p es' q :
  open_wb es p = Success es' → is_dir es' q = is_dir es q.
Proof.
  revert es es' q. induction p as [|c p IH]; intros es es' q Hopen;
    [discriminate|].
  destruct q as [|c' q]; [reflexivity|]. rewrite !is_dir_cons.
  destruct p as [|c2 p].
  - simpl in Hopen.
    destruct (es !! c) as [[data|es1]|] eqn:Hc; try discriminate;
      injection Hopen as <-;
      (destruct (decide (c = c')) as [<-|Hne];
       [rewrite lookup_insert_eq, Hc; reflexivity
       |rewrite lookup_insert_ne by exact Hne; reflexivity]).
  - rewrite open_wb_cons_cons in Hopen.
    destruct (es !! c) as [[data|es1]|] eqn:Hc; try discriminate.
    destruct (open_wb es1 (c2 :: p)) as [es2|e] eqn:Hopen1; [|discriminate].
    injection Hopen as <-.
    destruct (decide (c = c')) as [<-|Hne].
    + rewrite lookup_insert_eq, Hc. apply (IH es1 es2 q Hopen1).
    + rewrite lookup_insert_ne by exact Hne. reflexivity.
Qed.

(** Writing to a file creates no directory and removes none, and changes
    no other file. *)
Lemma store_is_dir_any es p data q :
  is_dir (store es p data) q = is_dir es q.
Proof.
  revert es q. induction p as [|c p IH]; intros es q; [reflexivity|].
  destruct q as [|c' q]; [reflexivity|]. rewrite !is_dir_cons.
  destruct p as [|c2 p].
  - simpl. destruct (es !! c) as [[data0|es1]|] eqn:Hc; try reflexivity.
    destruct (decide (c = c')) as [<-|Hne].
    + rewrite lookup_insert_eq, Hc. reflexivity.
    + rewrite lookup_insert_ne by exact Hne. reflexivity.
  - rewrite store_cons_cons.
    destruct (es !! c) as [[data0|es1]|] eqn:Hc; try reflexivity.
    destruct (decide (c = c')) as [<-|Hne].
    + rewrite lookup_insert_eq, Hc. apply IH.
    + rewrite lookup_insert_ne by exact Hne. reflexivity.
Qed.

(** The path is a directory once its directories are created. *)
Lemma mkdir_parents_is_dir es p es' :
  mkdir_parents es p = Success es' → is_dir es' p = true.
Proof.
  revert es es'. induction p as [|c p IH]; intros es es' Hmk; [reflexivity|].
  simpl in Hmk. rewrite is_dir_cons.
  destruct (es !! c) as [[data|es1]|] eqn:Hc; try discriminate.
  - destruct (mkdir_parents es1 p) as [es2|] eqn:Hmk1; [|discriminate].
    injection Hmk as <-. rewrite lookup_insert_eq. eauto.
  - destruct (mkdir_parents ∅ p) as [es2|] eqn:Hmk1; [|discriminate].
    injection Hmk as <-. rewrite lookup_insert_eq. eauto.
Qed.

Lemma is_dir_parent es p : is_dir es p = true → is_dir es (parent p) = true.
Proof.
  destruct p as [|name d _] using rev_ind; [tauto|].
  unfold parent. rewrite removelast_last. apply is_dir_prefix.
Qed.
End TreeFacts.

(** The small file system is a system as the compressors expect it. *)
Lemma toy_directories :
  directories ToyOS.sys (λ es p, Tree.is_dir es p = true).
Proof.
  split.
  - intros p parents exist_ok es es' u. cbn. unfold Tree.mkdir.
    destruct (negb exist_ok && _); [discriminate|].
    destruct (negb parents && _); [discriminate|].
    destruct (Tree.mkdir_parents es p) as [es1|e] eqn:Hmk; [|discriminate].
    intros [= <-]. eapply mkdir_parents_is_dir. exact Hmk.
  - intros p es. apply is_dir_parent.
  - intros name es es' f p. cbn.
    destruct (Tree.open_wb es (Tree.Path name)) as [es1|e] eqn:Hopen;
      [|discriminate].
    intros [= <- _] Hd. rewrite (open_wb_is_dir _ _ _ p Hopen). exact Hd.
  - intros f data es p Hd. cbn. rewrite store_is_dir_any. exact Hd.
Qed.

Lemma toy_no_parent_no_open :
  no_parent_no_open ToyOS.sys
    (λ es name, Tree.is_dir es (Tree.parent (Tree.Path name)) = false).
Proof.
  intros name es Hd. cbn.
  destruct (open_wb_no_parent _ _ Hd) as [-> | ->]; eexists; reflexivity.
Qed.

(** ** The extended pipeline, stage by stage *)

Section ExtendedStages.
Context {O : os} {L : pypdf}.
Implicit Types (w : state O L) (h : Heap L).

Lemma fold_left_set_heap {A} (f : A → Heap L → Heap L) (xs : list A) w :
  fold_left (λ w0 x, set_heap (f x (w_heap w0)) w0) xs w
  = set_heap (fold_left (λ h0 x, f x h0) xs (w_heap w)) w.
Proof.
  revert w. induction xs as [|x xs IH]; intros w; simpl.
  - symmetry. apply set_heap_heap.
  - rewrite IH. reflexivity.
Qed.

(** Stage 2 returns, with the attempt of every page made. *)
Lemma run_lossless_stage (writer : Writer L) w :
  run (for_pages (writer_pages L writer) (λ page,
         try_pass (call (compress_content_streams L page 9)))) w
  = (set_heap (PdfCompress.compress_all (writer_pages L writer (w_heap w))
                 (w_heap w)) w, Ok tt).
Proof.
  unfold for_pages. rewrite run_bind. unfold get at 1. simpl.
  rewrite (run_for_each
             (λ page w0, set_heap (compress_content_streams L page 9 (w_heap w0)).1 w0)).
  - rewrite (fold_left_set_heap
               (λ page h0, (compress_content_streams L page 9 h0).1)).
    reflexivity.
  - intros page w0. apply run_try_pass_call.
Qed.

(** The attempt on one image returns. *)
Lemma run_image_attempt (quality : Z) (img : Image L) w :
  run (try_pass (let* pil := call (image L img) in
                 call (replace L img pil quality))) w
  = (set_heap (PdfCompress.recompress_image quality img (w_heap w)) w, Ok tt).
Proof.
  unfold PdfCompress.recompress_image.
  rewrite run_try_pass; rewrite run_bind, run_call;
    destruct (image L img (w_heap w)) as [h1 [pil|e]]; simpl;
    try rewrite run_call; simpl; try reflexivity; try discriminate.
  intros c. destruct (replace L img pil quality h1).2; discriminate.
Qed.

(** The images of one page: every image of the enumeration has its
    attempt; the enumeration may raise at its end. *)
Local Abbreviation page_images quality :=
  (λ page,
     let* attr := call_total (images L page) in
     match attr with
     | NoImages => ret tt
     | Images imgs fails =>
         for_each imgs (λ img,
           try_pass
             (let* pil := call (image L img) in
              call (replace L img pil quality))) ;;;
         match fails with
         | Some e => raise e
         | None => ret tt
         end
     end).

Lemma run_page_images (quality : Z) (page : Page L) w :
  run (page_images quality page) w
  = (set_heap (PdfCompress.recompress_page quality page (w_heap w)).1 w,
     match (PdfCompress.recompress_page quality page (w_heap w)).2 with
     | Some e => Raise e
     | None => Ok tt
     end).
Proof.
  unfold PdfCompress.recompress_page. rewrite run_bind, run_call_total.
  destruct (images L page (w_heap w)) as [h1 [|imgs fails]]; cbn [fst snd].
  - reflexivity.
  - rewrite run_bind.
    rewrite (run_for_each
               (λ img w0, set_heap (PdfCompress.recompress_image quality img (w_heap w0)) w0)).
    + rewrite (fold_left_set_heap (PdfCompress.recompress_image quality)).
      destruct fails; reflexivity.
    + intros img w0. apply run_image_attempt.
Qed.

Lemma run_pages_images (quality : Z) (pages : list (Page L)) w :
  ∃ o, run (for_each pages (page_images quality)) w
       = (set_heap (PdfCompress.recompress_pages quality pages (w_heap w)) w, o)
       ∧ ∀ c, o ≠ Exit c.
Proof.
  revert w. induction pages as [|page pages IH]; intros w.
  - exists (Ok tt). split; [|discriminate].
    simpl. rewrite set_heap_heap. reflexivity.
  - cbn [for_each PdfCompress.recompress_pages].
    rewrite run_bind, run_page_images.
    destruct (PdfCompress.recompress_page quality page (w_heap w)) as [h1 [e|]];
      simpl.
    + exists (Raise e). split; [reflexivity|discriminate].
    + destruct (IH (set_heap h1 w)) as (o & Ho & Hne).
      exists o. split; [|exact Hne]. rewrite Ho. reflexivity.
Qed.

(** Stage 3 returns, whatever an image or an enumeration raised. *)
Lemma run_image_stage (quality : Z) (writer : Writer L) w :
  run (try_pass (for_pages (writer_pages L writer) (page_images quality))) w
  = (set_heap (PdfCompress.recompress_pages quality
                 (writer_pages L writer (w_heap w)) (w_heap w)) w, Ok tt).
Proof.
  assert (Hrun : ∃ o,
    run (for_pages (writer_pages L writer) (page_images quality)) w
    = (set_heap (PdfCompress.recompress_pages quality
                   (writer_pages L writer (w_heap w)) (w_heap w)) w, o)
    ∧ ∀ c, o ≠ Exit c).
  { unfold for_pages. rewrite run_bind. unfold get at 1. simpl.
    apply run_pages_images. }
  destruct Hrun as (o & Ho & Hne).
  rewrite run_try_pass; rewrite Ho; [reflexivity|exact Hne].
Qed.

(** Stages 2 to 4 return, and leave the heap of [after_stages]: once
    the source is cloned, [compress_pdf] goes on as stage 5 does. *)
Lemma extended_stages input_path output_path lossless image_quality
    w data h1 (writer : Writer L) :
  read_file O (fspath O (Path O input_path)) (w_fs w) = Success data →
  PdfWriter_clone_from L data (w_heap w) = (h1, Success writer) →
  run (PdfCompress.compress_pdf input_path output_path lossless image_quality) w
  = run (PdfCompress.save writer (Path O output_path))
      (set_heap (PdfCompress.after_stages writer lossless image_quality h1) w).
Proof.
  intros Hread Hclone. unfold PdfCompress.compress_pdf.
  rewrite run_bind, run_os_get, Hread.
  rewrite run_bind, run_call, Hclone. cbn [fst snd].
  unfold PdfCompress.after_stages, PdfCompress.after_stage4,
    PdfCompress.after_stage3, PdfCompress.after_stage2.
  rewrite run_bind.
  assert (H2 : ∀ w0,
    run (if lossless
         then for_pages (writer_pages L writer) (λ page,
                try_pass (call (compress_content_streams L page 9)))
         else ret tt) w0
    = (set_heap (if lossless
                 then PdfCompress.compress_all
                        (writer_pages L writer (w_heap w0)) (w_heap w0)
                 else w_heap w0) w0, Ok tt)).
  { intros w0. destruct lossless; [apply run_lossless_stage|].
    rewrite set_heap_heap. reflexivity. }
  rewrite H2. cbn [w_heap set_heap].
  rewrite run_bind.
  destruct image_quality as [quality|].
  - rewrite run_image_stage. cbn [w_heap set_heap].
    rewrite run_bind, run_try_pass_call. reflexivity.
  - rewrite run_ret, run_bind, run_try_pass_call. reflexivity.
Qed.

(** The writing: the destination is opened, the library writes to it,
    and the file is closed. *)
Lemma run_write_to (writer : Writer L) (name : string) w :
  run (write_to writer name) w
  = match open_wb O name (w_fs w) with
    | Failure e => (w, Raise e)
    | Success (fs1, f) =>
        (World (write_close O f (write L writer (w_heap w)).2.1 fs1).1
           (write L writer (w_heap w)).1 (w_stdout w) (w_stderr w),
         with_outcome (write_close O f (write L writer (w_heap w)).2.1 fs1).2
           (write L writer (w_heap w)).2.2)
    end.
Proof.
  unfold write_to. rewrite run_bind, run_os_open.
  destruct (open_wb O name (w_fs w)) as [[fs1 f]|e]; [|reflexivity].
  unfold run. cbn [w_heap w_fs set_fs w_stdout w_stderr].
  destruct (write L writer (w_heap w)) as [h [data failed]]. cbn [fst snd].
  destruct (write_close O f data fs1) as [fs2 os_failed]. reflexivity.
Qed.

Lemma run_save (writer : Writer L) (dst : PurePath O) w :
  run (PdfCompress.save writer dst) w
  = match mkdir O (parent O dst) true true (w_fs w) with
    | (fs1, Failure e) => (set_fs fs1 w, Raise e)
    | (fs1, Success _) => run (write_to writer (fspath O dst)) (set_fs fs1 w)
    end.
Proof.
  unfold PdfCompress.save. rewrite run_bind, run_os_do.
  destruct (mkdir O (parent O dst) true true (w_fs w)) as [fs1 [u|e]];
    reflexivity.
Qed.

(** The attempts of stage 2 are made one after the other: whatever the
    attempt on a page did, the pages after it have theirs. *)
Lemma compress_all_app (before after : list (Page L)) (page : Page L) h :
  PdfCompress.compress_all (before ++ page :: after) h
  = PdfCompress.compress_all after
      (compress_content_streams L page 9
         (PdfCompress.compress_all before h)).1.
Proof. unfold PdfCompress.compress_all. rewrite fold_left_app. reflexivity. Qed.

(** So are the attempts on the images of a page. *)
Lemma recompress_page_app (quality : Z) (page : Page L) h h1
    (before after : list (Image L)) (img : Image L) (fails : option exn) :
  images L page h = (h1, Images (before ++ img :: after) fails) →
  (PdfCompress.recompress_page quality page h).1
  = fold_left (λ h0 i, PdfCompress.recompress_image quality i h0) after
      (PdfCompress.recompress_image quality img
         (fold_left (λ h0 i, PdfCompress.recompress_image quality i h0)
            before h1)).
Proof.
  intros Himages. unfold PdfCompress.recompress_page. rewrite Himages.
  cbn [fst]. rewrite fold_left_app. reflexivity.
Qed.
End ExtendedStages.

(** ** What propagates out of the writing *)

Lemma with_outcome_never_exits (os_failed failed : option exn) (c : Z) :
  with_outcome os_failed failed ≠ Exit c.
Proof. destruct os_failed, failed; discriminate. Qed.

Lemma with_outcome_ok (os_failed failed : option exn) :
  with_outcome os_failed failed = Ok tt → os_failed = None ∧ failed = None.
Proof. destruct os_failed, failed; try discriminate. split; reflexivity. Qed.

Lemma with_outcome_raise (os_failed failed : option exn) (e : exn) :
  with_outcome os_failed failed = Raise e →
  os_failed = Some e ∨ os_failed = None ∧ failed = Some e.
Proof.
  destruct os_failed, failed; try discriminate; intros [= ->];
    [left|left|right]; try split; reflexivity.
Qed.

Section Writing.
Context {O : os} {L : pypdf}.
Implicit Types (w : state O L) (h : Heap L).

(** The writing either raises at once, the destination not opened and
    the world as it was, or opens the destination and leaves what the
    library and the system made of it. *)
Lemma run_write_to_cases (writer : Writer L) (name : string) w :
  (∃ e, open_wb O name (w_fs w) = Failure e ∧
        run (write_to writer name) w = (w, Raise e)) ∨
  (∃ fs1 f,
     open_wb O name (w_fs w) = Success (fs1, f) ∧
     run (write_to writer name) w
     = (World (write_close O f (write L writer (w_heap w)).2.1 fs1).1
          (write L writer (w_heap w)).1 (w_stdout w) (w_stderr w),
        with_outcome (write_close O f (write L writer (w_heap w)).2.1 fs1).2
          (write L writer (w_heap w)).2.2)).
Proof.
  rewrite run_write_to.
  destruct (open_wb O name (w_fs w)) as [[fs1 f]|e] eqn:Hopen.
  - right. exists fs1, f. split; reflexivity.
  - left. exists e. split; reflexivity.
Qed.

Lemma write_to_never_exits (writer : Writer L) (name : string) w c :
  (run (write_to writer name) w).2 ≠ Exit c.
Proof.
  destruct (run_write_to_cases writer name w)
    as [(e & _ & ->) | (fs1 & f & _ & ->)]; [discriminate|].
  apply with_outcome_never_exits.
Qed.

Lemma save_never_exits (writer : Writer L) (dst : PurePath O) w c :
  (run (PdfCompress.save writer dst) w).2 ≠ Exit c.
Proof.
  rewrite run_save.
  destruct (mkdir O (parent O dst) true true (w_fs w)) as [fs1 [u|e]];
    [apply write_to_never_exits|discriminate].
Qed.
End Writing.

(** ** What propagates out of the extended pipeline *)

Section ExtendedOutcome.
Context {O : os} {L : pypdf}.
Implicit Types (w : state O L) (h : Heap L).

Lemma extended_open_fails input_path output_path lossless image_quality w e :
  read_file O (fspath O (Path O input_path)) (w_fs w) = Failure e →
  run (PdfCompress.compress_pdf input_path output_path lossless image_quality) w
  = (w, Raise e).
Proof.
  intros Hread. unfold PdfCompress.compress_pdf.
  rewrite run_bind, run_os_get, Hread. reflexivity.
Qed.

Lemma extended_clone_fails input_path output_path lossless image_quality
    w data h1 e :
  read_file O (fspath O (Path O input_path)) (w_fs w) = Success data →
  PdfWriter_clone_from L data (w_heap w) = (h1, Failure e) →
  run (PdfCompress.compress_pdf input_path output_path lossless image_quality) w
  = (set_heap h1 w, Raise e).
Proof.
  intros Hread Hclone. unfold PdfCompress.compress_pdf.
  rewrite run_bind, run_os_get, Hread.
  rewrite run_bind, run_call, Hclone. reflexivity.
Qed.

(** The pipeline either raises before stage 5, the file system and the
    streams being as they were, or goes on as stage 5 does. *)
Lemma extended_cases input_path output_path lossless image_quality w :
  (∃ h e,
     run (PdfCompress.compress_pdf input_path output_path lossless image_quality) w
     = (set_heap h w, Raise e)) ∨
  (∃ (writer : Writer L) h4,
     run (PdfCompress.compress_pdf input_path output_path lossless image_quality) w
     = run (PdfCompress.save writer (Path O output_path)) (set_heap h4 w)).
Proof.
  destruct (read_file O (fspath O (Path O input_path)) (w_fs w))
    as [data|e] eqn:Hread.
  - destruct (PdfWriter_clone_from L data (w_heap w)) as [h1 [writer|e]] eqn:Hclone.
    + right. eexists _, _. eapply extended_stages; eassumption.
    + left. eexists _, _. eapply extended_clone_fails; eassumption.
  - left. exists (w_heap w), e. rewrite set_heap_heap.
    apply extended_open_fails. exact Hread.
Qed.

Lemma extended_never_exits input_path output_path lossless image_quality w c :
  (run (PdfCompress.compress_pdf input_path output_path lossless image_quality) w).2
  ≠ Exit c.
Proof.
  destruct (extended_cases input_path output_path lossless image_quality w)
    as [(h & e & ->) | (writer & h4 & ->)]; [discriminate|].
  apply save_never_exits.
Qed.

(** Stage 5 when the directory cannot be created, when the destination
    cannot be opened, and when it is opened. *)
Lemma run_save_mkdir_fails (writer : Writer L) (dst : PurePath O) w fs1 e :
  mkdir O (parent O dst) true true (w_fs w) = (fs1, Failure e) →
  run (PdfCompress.save writer dst) w = (set_fs fs1 w, Raise e).
Proof. intros Hmk. rewrite run_save, Hmk. reflexivity. Qed.

Lemma run_save_open_fails (writer : Writer L) (dst : PurePath O) w fs1 u e :
  mkdir O (parent O dst) true true (w_fs w) = (fs1, Success u) →
  open_wb O (fspath O dst) fs1 = Failure e →
  run (PdfCompress.save writer dst) w = (set_fs fs1 w, Raise e).
Proof.
  intros Hmk Hopen. rewrite run_save, Hmk, run_write_to.
  cbn [w_fs set_fs]. rewrite Hopen. reflexivity.
Qed.

Lemma run_save_opened (writer : Writer L) (dst : PurePath O) w fs1 u fs2 f :
  mkdir O (parent O dst) true true (w_fs w) = (fs1, Success u) →
  open_wb O (fspath O dst) fs1 = Success (fs2, f) →
  run (PdfCompress.save writer dst) w
  = (World (write_close O f (write L writer (w_heap w)).2.1 fs2).1
       (write L writer (w_heap w)).1 (w_stdout w) (w_stderr w),
     with_outcome (write_close O f (write L writer (w_heap w)).2.1 fs2).2
       (write L writer (w_heap w)).2.2).
Proof.
  intros Hmk Hopen. rewrite run_save, Hmk, run_write_to.
  cbn [w_fs set_fs]. rewrite Hopen. reflexivity.
Qed.
End ExtendedOutcome.

(** C1.  In the extended pipeline every compression sub-step is
    fault-tolerant, and two classes of failure propagate.

    Failure to open the source and failure to clone it propagate.

    Once the source is cloned, stages 2 to 4 return whatever the
    library raised in them: an exception of the attempt on a page is
    caught and the pages after it still have their attempts; so it is
    with the attempt on an image and the images after it; the
    exceptions of the enumeration of the images and of the
    de-duplication are caught too.  The pipeline goes on to stage 5 on
    the heap these attempts left.

    In stage 5 every failure propagates: that of the creation of the
    directory, that of the opening of the destination, that of the
    system while the file is written and closed, and that of the
    library while it writes.  When none of them fails the pipeline
    returns.  It never exits the process. *)
Theorem extended_pipeline_fault_tolerant (O : os) (L : pypdf)
    (input_path output_path : string) (lossless : bool)
    (image_quality : option Z) (w : state O L) :
  (∀ e, read_file O (fspath O (Path O input_path)) (w_fs w) = Failure e →
     run (PdfCompress.compress_pdf input_path output_path lossless image_quality) w
     = (w, Raise e)) ∧
  (∀ data h1 e,
     read_file O (fspath O (Path O input_path)) (w_fs w) = Success data →
     PdfWriter_clone_from L data (w_heap w) = (h1, Failure e) →
     run (PdfCompress.compress_pdf input_path output_path lossless image_quality) w
     = (set_heap h1 w, Raise e)) ∧
  (∀ data h1 writer,
     read_file O (fspath O (Path O input_path)) (w_fs w) = Success data →
     PdfWriter_clone_from L data (w_heap w) = (h1, Success writer) →
     let h4 := PdfCompress.after_stages writer lossless image_quality h1 in
     run (PdfCompress.compress_pdf input_path output_path lossless image_quality) w
     = run (PdfCompress.save writer (Path O output_path)) (set_heap h4 w) ∧
     (∀ before page after,
        writer_pages L writer h1 = before ++ page :: after →
        PdfCompress.after_stage2 writer true h1
        = PdfCompress.compress_all after
            (compress_content_streams L page 9
               (PdfCompress.compress_all before h1)).1) ∧
     (∀ fs1 e,
        mkdir O (parent O (Path O output_path)) true true (w_fs w)
        = (fs1, Failure e) →
        run (PdfCompress.compress_pdf input_path output_path lossless image_quality) w
        = (World fs1 h4 (w_stdout w) (w_stderr w), Raise e)) ∧
     (∀ fs1 u e,
        mkdir O (parent O (Path O output_path)) true true (w_fs w)
        = (fs1, Success u) →
        open_wb O (fspath O (Path O output_path)) fs1 = Failure e →
        run (PdfCompress.compress_pdf input_path output_path lossless image_quality) w
        = (World fs1 h4 (w_stdout w) (w_stderr w), Raise e)) ∧
     (∀ fs1 u fs2 f,
        mkdir O (parent O (Path O output_path)) true true (w_fs w)
        = (fs1, Success u) →
        open_wb O (fspath O (Path O output_path)) fs1 = Success (fs2, f) →
        let written := write L writer h4 in
        let closed := write_close O f written.2.1 fs2 in
        run (PdfCompress.compress_pdf input_path output_path lossless image_quality) w
        = (World closed.1 written.1 (w_stdout w) (w_stderr w),
           with_outcome closed.2 written.2.2) ∧
        (∀ e, closed.2 = Some e →
           (run (PdfCompress.compress_pdf input_path output_path
                   lossless image_quality) w).2 = Raise e) ∧
        (∀ e, closed.2 = None → written.2.2 = Some e →
           (run (PdfCompress.compress_pdf input_path output_path
                   lossless image_quality) w).2 = Raise e) ∧
        (closed.2 = None → written.2.2 = None →
           (run (PdfCompress.compress_pdf input_path output_path
                   lossless image_quality) w).2 = Ok tt)) ∧
     (∀ e,
        (run (PdfCompress.compress_pdf input_path output_path
                lossless image_quality) w).2 = Raise e →
        (∃ fs1,
           mkdir O (parent O (Path O output_path)) true true (w_fs w)
           = (fs1, Failure e)) ∨
        (∃ fs1 u,
           mkdir O (parent O (Path O output_path)) true true (w_fs w)
           = (fs1, Success u) ∧
           open_wb O (fspath O (Path O output_path)) fs1 = Failure e) ∨
        (∃ fs1 u fs2 f,
           mkdir O (parent O (Path O output_path)) true true (w_fs w)
           = (fs1, Success u) ∧
           open_wb O (fspath O (Path O output_path)) fs1 = Success (fs2, f) ∧
           ((write_close O f (write L writer h4).2.1 fs2).2 = Some e ∨
            (write L writer h4).2.2 = Some e)))) ∧
  (∀ quality page h h1 before img after fails,
     images L page h = (h1, Images (before ++ img :: after) fails) →
     (PdfCompress.recompress_page quality page h).1
     = fold_left (λ h0 i, PdfCompress.recompress_image quality i h0) after
         (PdfCompress.recompress_image quality img
            (fold_left (λ h0 i, PdfCompress.recompress_image quality i h0)
               before h1))) ∧
  (∀ c,
     (run (PdfCompress.compress_pdf input_path output_path lossless image_quality) w).2
     ≠ Exit c).
Proof.
  split; [|split; [|split; [|split]]].
  - intros e. apply extended_open_fails.
  - intros data h1 e. apply extended_clone_fails.
  - intros data h1 writer Hread Hclone h4.
    pose proof (extended_stages input_path output_path lossless
                  image_quality w data h1 writer Hread Hclone) as Hrun.
    fold h4 in Hrun.
    split; [exact Hrun|]. split; [|split; [|split; [|split]]].
    + intros before page after Hpages.
      unfold PdfCompress.after_stage2. rewrite Hpages. apply compress_all_app.
    + intros fs1 e Hmk. rewrite Hrun.
      apply (run_save_mkdir_fails writer _ (set_heap h4 w) fs1 e Hmk).
    + intros fs1 u e Hmk Hopen. rewrite Hrun.
      apply (run_save_open_fails writer _ (set_heap h4 w) fs1 u e Hmk Hopen).
    + intros fs1 u fs2 f Hmk Hopen written closed.
      pose proof (run_save_opened writer _ (set_heap h4 w) fs1 u fs2 f Hmk Hopen)
        as Hsave.
      cbn [w_heap set_heap w_stdout w_stderr] in Hsave.
      fold written in Hsave. fold closed in Hsave.
      rewrite Hrun, Hsave. cbn [snd].
      split; [reflexivity|]. split; [|split].
      * intros e ->. reflexivity.
      * intros e -> ->. reflexivity.
      * intros -> ->. reflexivity.
    + intros e. rewrite Hrun, run_save. cbn [w_fs set_heap].
      destruct (mkdir O (parent O (Path O output_path)) true true (w_fs w))
        as [fs1 [u|e1]] eqn:Hmk.
      * destruct (run_write_to_cases writer (fspath O (Path O output_path))
                    (set_fs fs1 (set_heap h4 w)))
          as [(e1 & Hopen & ->) | (fs2 & f & Hopen & ->)].
        -- intros [= ->]. right. left. exists fs1, u.
           split; [reflexivity|exact Hopen].
        -- cbn [snd w_heap set_fs set_heap]. intros Hout.
           right. right. exists fs1, u, fs2, f.
           split; [reflexivity|]. split; [exact Hopen|].
           destruct (with_outcome_raise _ _ _ Hout) as [H1 | [_ H2]];
             [left|right]; assumption.
      * intros [= ->]. left. exists fs1. reflexivity.
  - intros quality page h h1 before img after fails.
    apply recompress_page_app.
  - intros c. apply extended_never_exits.
Qed.

Lemma extended_pipeline_fault_tolerant_witness :
  read_file ToyOS.sys (fspath ToyOS.sys (Path ToyOS.sys "in.pdf")) ToyPdf.fs0
  = Success ToyPdf.source ∧
  (compress_content_streams ToyPdf.lib (ToyPdf.DocPage 1) 9
     (PdfWriter_clone_from ToyPdf.lib ToyPdf.source ToyPdf.heap0).1).2
  = Failure ToyPdf.PdfStreamError ∧
  (run (PdfCompress.compress_pdf (O := ToyOS.sys) (L := ToyPdf.lib)
          "in.pdf" "out/deep/doc.pdf" true (Some 50)) ToyPdf.world0).2
  = Ok tt.
Proof.
  split; [reflexivity|]. split; [reflexivity|].
  destruct (extended_pipeline_fault_tolerant ToyOS.sys ToyPdf.lib
              "in.pdf" "out/deep/doc.pdf" true (Some 50) ToyPdf.world0)
    as (_ & _ & Hcloned & _).
  destruct (Hcloned ToyPdf.source
              (PdfWriter_clone_from ToyPdf.lib ToyPdf.source ToyPdf.heap0).1
              tt eq_refl eq_refl) as (_ & _ & _ & _ & Hopened & _).
  destruct (Hopened
              {[ "in.pdf" := Tree.File ToyPdf.source;
                 "out" := Tree.Dir {[ "deep" := Tree.Dir ∅ ]} ]}
              tt
              {[ "in.pdf" := Tree.File ToyPdf.source;
                 "out" := Tree.Dir {[ "deep" := Tree.Dir {[ "doc.pdf" := Tree.File [] ]} ]} ]}
              ["out"; "deep"; "doc.pdf"]) as (_ & _ & _ & Hok).
  - vm_compute. reflexivity.
  - vm_compute. reflexivity.
  - apply Hok; reflexivity.
Defined.

(** ** The extended pipeline with every stage off *)

(** C4.  With the lossless flag false, no image quality, and the
    de-duplication not supported, the extended pipeline is the
    pass-through of the structural clone: stages 2 to 4 leave the heap
    as the clone made it, and the run is the run of the program that
    clones the source and writes the clone. *)
Theorem extended_pipeline_pass_through (O : os) (L : pypdf)
    (input_path output_path : string) (w : state O L) :
  PdfCompress.dedup_unsupported (L := L) →
  (∀ (writer : Writer L) (h1 : Heap L),
     PdfCompress.after_stages writer false None h1 = h1) ∧
  run (PdfCompress.compress_pdf input_path output_path false None) w
  = run (PdfCompress.pass_through input_path output_path) w.
Proof.
  intros Hdedup.
  assert (Hid : ∀ (writer : Writer L) h1,
            PdfCompress.after_stages writer false None h1 = h1).
  { intros writer h1.
    unfold PdfCompress.after_stages, PdfCompress.after_stage4,
      PdfCompress.after_stage3, PdfCompress.after_stage2.
    destruct (Hdedup writer true true h1) as [e ->]. reflexivity. }
  split; [exact Hid|].
  unfold PdfCompress.pass_through.
  rewrite run_bind, run_os_get.
  destruct (read_file O (fspath O (Path O input_path)) (w_fs w))
    as [data|e] eqn:Hread.
  - rewrite run_bind, run_call.
    destruct (PdfWriter_clone_from L data (w_heap w)) as [h1 [writer|e]] eqn:Hclone.
    + rewrite (extended_stages _ _ _ _ _ _ _ _ Hread Hclone), Hid.
      reflexivity.
    + apply (extended_clone_fails _ _ _ _ _ _ _ _ Hread Hclone).
  - apply extended_open_fails. exact Hread.
Qed.

Lemma extended_pipeline_pass_through_witness :
  PdfCompress.dedup_unsupported (L := ToyPdf.lib) ∧
  run (PdfCompress.compress_pdf (O := ToyOS.sys) (L := ToyPdf.lib)
         "in.pdf" "out/doc.pdf" false None) ToyPdf.world0
  = run (PdfCompress.pass_through (O := ToyOS.sys) (L := ToyPdf.lib)
           "in.pdf" "out/doc.pdf")
      ToyPdf.world0.
Proof.
  assert (Hdedup : PdfCompress.dedup_unsupported (L := ToyPdf.lib)).
  { intros writer a b h. eexists. reflexivity. }
  split; [exact Hdedup|].
  apply (extended_pipeline_pass_through ToyOS.sys ToyPdf.lib
           "in.pdf" "out/doc.pdf" ToyPdf.world0 Hdedup).
Defined.

(** ** The command line of the extended compressor *)

Section ExtendedMain.
Context {O : os} {L : pypdf}.
Implicit Types (w : state O L) (h : Heap L).

Lemma extended_main_too_few (argv : list string) w :
  (length argv < 3)%nat →
  run (PdfCompress.main argv) w
  = (World (w_fs w) (w_heap w)
       (w_stdout w +:+ PdfCompress.usage +:+ newline) (w_stderr w), Ok 2).
Proof.
  intros Hlen. unfold PdfCompress.main.
  destruct (Nat.ltb_spec (length argv) 3) as [_|Hge]; [|lia].
  reflexivity.
Qed.

(** With the two paths and, when it is given, an integer literal as
    third argument, [main] runs the pipeline with the lossless flag
    set and returns 0 when the pipeline returns. *)
Lemma extended_main_runs_pipeline prog input output rest quality w :
  match rest with
  | [] => quality = None
  | a :: _ => ∃ q, PyInt.int a = Success q ∧ quality = Some q
  end →
  run (PdfCompress.main (prog :: input :: output :: rest)) w
  = match run (PdfCompress.compress_pdf input output true quality) w with
    | (w', Ok _) => (w', Ok 0)
    | (w', Raise e) => (w', Raise e)
    | (w', Exit c) => (w', Exit c)
    end.
Proof.
  intros Hq. unfold PdfCompress.main.
  destruct (Nat.ltb_spec (length (prog :: input :: output :: rest)) 3)
    as [Hlt|_]; [simpl in Hlt; lia|].
  rewrite run_bind, (run_item _ 1 input) by reflexivity.
  rewrite run_bind, (run_item _ 2 output) by reflexivity.
  rewrite run_bind.
  destruct rest as [|a rest].
  - subst quality.
    change (3 <? length [prog; input; output])%nat with false. cbv iota.
    rewrite run_ret, run_bind.
    destruct (run (PdfCompress.compress_pdf input output true None) w)
      as [w' [[]|e|c]]; reflexivity.
  - destruct Hq as (q & Hint & ->).
    destruct (Nat.ltb_spec 3 (length (prog :: input :: output :: a :: rest)))
      as [_|Hge]; [|simpl in Hge; lia].
    rewrite run_bind, (run_item _ 3 a) by reflexivity.
    rewrite run_bind, run_int, Hint, run_ret, run_bind.
    destruct (run (PdfCompress.compress_pdf input output true (Some q)) w)
      as [w' [[]|e|c]]; reflexivity.
Qed.

(** A third argument that [int] refuses stops [main] before anything
    else happens. *)
Lemma extended_main_bad_quality prog input output a rest w e :
  PyInt.int a = Failure e →
  run (PdfCompress.main (prog :: input :: output :: a :: rest)) w = (w, Raise e).
Proof.
  intros Hint. unfold PdfCompress.main.
  destruct (Nat.ltb_spec (length (prog :: input :: output :: a :: rest)) 3)
    as [Hlt|_]; [simpl in Hlt; lia|].
  destruct (Nat.ltb_spec 3 (length (prog :: input :: output :: a :: rest)))
    as [_|Hge]; [|simpl in Hge; lia].
  rewrite run_bind, (run_item _ 1 input) by reflexivity.
  rewrite run_bind, (run_item _ 2 output) by reflexivity.
  rewrite run_bind, run_bind, (run_item _ 3 a) by reflexivity.
  rewrite run_bind, run_int, Hint. reflexivity.
Qed.

(** What [main] does with an argument vector of three entries or more. *)
Lemma extended_main_cases prog input output rest w :
  (∃ a e, rest !! 0%nat = Some a ∧ PyInt.int a = Failure e ∧
          run (PdfCompress.main (prog :: input :: output :: rest)) w
          = (w, Raise e)) ∨
  (∃ quality,
     run (PdfCompress.main (prog :: input :: output :: rest)) w
     = match run (PdfCompress.compress_pdf input output true quality) w with
       | (w', Ok _) => (w', Ok 0)
       | (w', Raise e) => (w', Raise e)
       | (w', Exit c) => (w', Exit c)
       end).
Proof.
  destruct rest as [|a rest].
  - right. exists None. apply extended_main_runs_pipeline. reflexivity.
  - destruct (PyInt.int a) as [q|e] eqn:Hint.
    + right. exists (Some q). apply extended_main_runs_pipeline. eauto.
    + left. exists a, e. split; [reflexivity|]. split; [exact Hint|].
      apply extended_main_bad_quality. exact Hint.
Qed.

(** A directory that [mkdir] made is there, with the directories in
    which it lies, when the file is written and closed. *)
Lemma directories_after (is_dir : Files O → PurePath O → Prop)
    (p : PurePath O) (name : string) (data : bytes) fs fs1 u fs2 f (n : nat) :
  directories O is_dir →
  mkdir O p true true fs = (fs1, Success u) →
  open_wb O name fs1 = Success (fs2, f) →
  is_dir (write_close O f data fs2).1 (Nat.iter n (parent O) p).
Proof.
  intros Hos Hmk Hopen. induction n as [|n IH].
  - apply (write_keeps _ _ Hos). apply (open_keeps _ _ Hos _ _ _ _ _ Hopen).
    apply (mkdir_makes _ _ Hos _ _ _ _ _ _ Hmk).
  - apply (dir_in_dir _ _ Hos). exact IH.
Qed.
End ExtendedMain.

(** C5.  The extended compressor exits with 2 when it is given fewer
    than two positional arguments, after printing its usage.  On a valid
    invocation (two paths and, optionally, an integer literal such as
    50; a source that the library clones; a directory that the system
    creates or finds; a destination that it opens; a document that the
    library writes and the system stores) it exits with 0.  The file
    system is then the one that these operations left, in this order:
    [mkdir(parents=True, exist_ok=True)] on the parent of the output
    path, the directories being created before the destination is
    opened, then [open] on the output path, then the writing and the
    closing.  On every system on which a directory that [mkdir] made
    lies in directories and stays while a file is written, the parent of
    the output path and every directory above it exist at the end. *)
Theorem extended_cli_exit_codes (O : os) (L : pypdf) (argv : list string)
    (w : state O L) :
  ((length argv < 3)%nat →
   run (PdfCompress.main argv) w
   = (World (w_fs w) (w_heap w)
        (w_stdout w +:+ PdfCompress.usage +:+ newline) (w_stderr w), Ok 2) ∧
   exit_status (run (PdfCompress.script argv) w).2 = 2) ∧
  (∀ prog input output rest quality data h1 (writer : Writer L) fs1 u fs2 f,
     argv = prog :: input :: output :: rest →
     match rest with
     | [] => quality = None
     | a :: _ => ∃ q, PyInt.int a = Success q ∧ quality = Some q
     end →
     read_file O (fspath O (Path O input)) (w_fs w) = Success data →
     PdfWriter_clone_from L data (w_heap w) = (h1, Success writer) →
     mkdir O (parent O (Path O output)) true true (w_fs w) = (fs1, Success u) →
     open_wb O (fspath O (Path O output)) fs1 = Success (fs2, f) →
     let written :=
       write L writer (PdfCompress.after_stages writer true quality h1) in
     let closed := write_close O f written.2.1 fs2 in
     written.2.2 = None →
     closed.2 = None →
     run (PdfCompress.main argv) w
     = (World closed.1 written.1 (w_stdout w) (w_stderr w), Ok 0) ∧
     exit_status (run (PdfCompress.script argv) w).2 = 0 ∧
     (∀ is_dir : Files O → PurePath O → Prop,
        directories O is_dir →
        ∀ n, is_dir closed.1 (Nat.iter n (parent O) (parent O (Path O output))))).
Proof.
  split.
  - intros Hlen. pose proof (extended_main_too_few argv w Hlen) as Hmain.
    split; [exact Hmain|].
    unfold PdfCompress.script. rewrite run_bind, Hmain. reflexivity.
  - intros prog input output rest quality data h1 writer fs1 u fs2 f
      -> Hq Hread Hclone Hmk Hopen written closed Hwritten Hclosed.
    pose proof (extended_main_runs_pipeline prog input output rest quality w Hq)
      as Hmain.
    rewrite (extended_stages _ _ _ _ _ _ _ _ Hread Hclone) in Hmain.
    rewrite (run_save_opened writer _
               (set_heap (PdfCompress.after_stages writer true quality h1) w)
               fs1 u fs2 f Hmk Hopen) in Hmain.
    cbn [w_heap set_heap w_stdout w_stderr] in Hmain.
    fold written in Hmain. fold closed in Hmain.
    rewrite Hwritten, Hclosed in Hmain. cbn [with_outcome] in Hmain.
    split; [exact Hmain|]. split.
    + unfold PdfCompress.script. rewrite run_bind, Hmain. reflexivity.
    + intros is_dir Hos n.
      apply (directories_after is_dir _ _ _ _ _ _ _ _ n Hos Hmk Hopen).
Qed.

Lemma extended_cli_exit_codes_witness :
  ∃ w', run (PdfCompress.main (O := ToyOS.sys) (L := ToyPdf.lib)
               ["pdf_compress.py"; "in.pdf"; "out/deep/doc.pdf"; "50"])
          ToyPdf.world0 = (w', Ok 0) ∧
        Tree.is_dir ToyPdf.fs0 ["out"] = false ∧
        Tree.is_file (w_fs w') ["out"; "deep"; "doc.pdf"] = true ∧
        Tree.is_dir (w_fs w') ["out"] = true ∧
        Tree.is_dir (w_fs w') ["out"; "deep"] = true.
Proof.
  destruct (extended_cli_exit_codes ToyOS.sys ToyPdf.lib
              ["pdf_compress.py"; "in.pdf"; "out/deep/doc.pdf"; "50"]
              ToyPdf.world0) as [_ Hvalid].
  destruct (Hvalid "pdf_compress.py" "in.pdf" "out/deep/doc.pdf" ["50"]
              (Some 50) ToyPdf.source
              (PdfWriter_clone_from ToyPdf.lib ToyPdf.source ToyPdf.heap0).1
              tt
              {[ "in.pdf" := Tree.File ToyPdf.source;
                 "out" := Tree.Dir {[ "deep" := Tree.Dir ∅ ]} ]}
              tt
              {[ "in.pdf" := Tree.File ToyPdf.source;
                 "out" := Tree.Dir
                            {[ "deep" := Tree.Dir
                                           {[ "doc.pdf" := Tree.File [] ]} ]} ]}
              ["out"; "deep"; "doc.pdf"])
    as (Hmain & _ & Hdirs).
  - reflexivity.
  - exists 50. split; reflexivity.
  - reflexivity.
  - reflexivity.
  - vm_compute. reflexivity.
  - vm_compute. reflexivity.
  - reflexivity.
  - reflexivity.
  - eexists. split; [exact Hmain|]. cbn [w_fs].
    split; [reflexivity|]. split; [vm_compute; reflexivity|].
    split.
    + apply (Hdirs _ toy_directories 1%nat).
    + apply (Hdirs _ toy_directories 0%nat).
Defined.

(** C9.  When the third positional argument of the extended compressor
    is not an integer literal, [int] raises a [ValueError] that nothing
    catches, before the pipeline runs: nothing is printed, the file
    system is not touched, the library is not called, and the exit
    status is that of an uncaught exception, neither 0 nor 2. *)
Theorem extended_cli_bad_quality (O : os) (L : pypdf)
    (prog input output a : string) (rest : list string) (w : state O L)
    (e : exn) :
  PyInt.int a = Failure e →
  exn_class e = "ValueError" ∧
  run (PdfCompress.main (prog :: input :: output :: a :: rest)) w = (w, Raise e) ∧
  run (PdfCompress.script (prog :: input :: output :: a :: rest)) w = (w, Raise e) ∧
  exit_status (run (PdfCompress.script (prog :: input :: output :: a :: rest)) w).2 = 1.
Proof.
  intros Hint.
  pose proof (extended_main_bad_quality prog input output a rest w e Hint) as Hmain.
  assert (Hscript :
    run (PdfCompress.script (prog :: input :: output :: a :: rest)) w = (w, Raise e)).
  { unfold PdfCompress.script. rewrite run_bind, Hmain. reflexivity. }
  split; [exact (int_raises_ValueError a e Hint)|].
  split; [exact Hmain|]. split; [exact Hscript|].
  rewrite Hscript. reflexivity.
Qed.

Lemma extended_cli_bad_quality_witness :
  PyInt.int "high" = Failure (PyInt.invalid_literal "high") ∧
  run (PdfCompress.main (O := ToyOS.sys) (L := ToyPdf.lib)
         ["pdf_compress.py"; "in.pdf"; "out.pdf"; "high"]) ToyPdf.world0
  = (ToyPdf.world0, Raise (PyInt.invalid_literal "high")).
Proof.
  split; [reflexivity|].
  apply (extended_cli_bad_quality ToyOS.sys ToyPdf.lib
           "pdf_compress.py" "in.pdf" "out.pdf" "high" [] ToyPdf.world0
           (PyInt.invalid_literal "high") eq_refl).
Defined.

(** ** The basic pipeline, step by step *)

Section BasicSteps.
Context {O : os} {L : pypdf}.
Implicit Types (w : state O L) (h : Heap L).

Lemma run_for_pages (pages : Heap L → list (Page L))
    (body : Page L → M (state O L) unit) w :
  run (for_pages pages body) w = run (for_each (pages (w_heap w)) body) w.
Proof. reflexivity. Qed.

Lemma run_add_pages (writer : Writer L) (pages : list (Page L)) w :
  run (for_each pages (λ page, call (add_page L writer page))) w
  = (set_heap (CompressPdf.add_pages writer pages (w_heap w)).1 w,
     match (CompressPdf.add_pages writer pages (w_heap w)).2 with
     | None => Ok tt
     | Some e => Raise e
     end).
Proof.
  revert w. induction pages as [|page pages IH]; intros w.
  - simpl. rewrite set_heap_heap. reflexivity.
  - cbn [for_each CompressPdf.add_pages]. rewrite run_bind, run_call.
    destruct (add_page L writer page (w_heap w)) as [h1 [[]|e]]; cbn [fst snd].
    + rewrite IH. reflexivity.
    + reflexivity.
Qed.

Lemma basic_open_fails input_path output_path w e :
  read_file O input_path (w_fs w) = Failure e →
  run (CompressPdf.compress_pdf input_path output_path) w = (w, Raise e).
Proof.
  intros Hread. unfold CompressPdf.compress_pdf.
  rewrite run_bind, run_os_get, Hread. reflexivity.
Qed.

Lemma basic_parse_fails input_path output_path w data h1 e :
  read_file O input_path (w_fs w) = Success data →
  PdfReader L data (w_heap w) = (h1, Failure e) →
  run (CompressPdf.compress_pdf input_path output_path) w
  = (set_heap h1 w, Raise e).
Proof.
  intros Hread Hparse. unfold CompressPdf.compress_pdf.
  rewrite run_bind, run_os_get, Hread.
  rewrite run_bind, run_call, Hparse. reflexivity.
Qed.

Lemma basic_new_writer_fails input_path output_path w data h1 reader h2 e :
  read_file O input_path (w_fs w) = Success data →
  PdfReader L data (w_heap w) = (h1, Success reader) →
  PdfWriter L h1 = (h2, Failure e) →
  run (CompressPdf.compress_pdf input_path output_path) w
  = (set_heap h2 w, Raise e).
Proof.
  intros Hread Hparse Hnew. unfold CompressPdf.compress_pdf.
  rewrite run_bind, run_os_get, Hread.
  rewrite run_bind, run_call, Hparse. cbn [fst snd].
  rewrite run_bind, run_call. cbn [w_heap set_heap]. rewrite Hnew. reflexivity.
Qed.

Lemma basic_add_page_fails input_path output_path w data h1 reader h2
    (writer : Writer L) h3 e :
  read_file O input_path (w_fs w) = Success data →
  PdfReader L data (w_heap w) = (h1, Success reader) →
  PdfWriter L h1 = (h2, Success writer) →
  CompressPdf.add_pages writer (reader_pages L reader h2) h2 = (h3, Some e) →
  run (CompressPdf.compress_pdf input_path output_path) w
  = (set_heap h3 w, Raise e).
Proof.
  intros Hread Hparse Hnew Hadd. unfold CompressPdf.compress_pdf.
  rewrite run_bind, run_os_get, Hread.
  rewrite run_bind, run_call, Hparse. cbn [fst snd].
  rewrite run_bind, run_call. cbn [w_heap set_heap]. rewrite Hnew. cbn [fst snd].
  rewrite run_bind, run_for_pages, run_add_pages. cbn [w_heap set_heap].
  rewrite Hadd. reflexivity.
Qed.

(** Once the pages are copied, the pipeline goes on to the writing,
    whatever the compression call returned or raised. *)
Lemma basic_reaches_write input_path output_path w data h1 reader h2
    (writer : Writer L) h3 :
  read_file O input_path (w_fs w) = Success data →
  PdfReader L data (w_heap w) = (h1, Success reader) →
  PdfWriter L h1 = (h2, Success writer) →
  CompressPdf.add_pages writer (reader_pages L reader h2) h2 = (h3, None) →
  run (CompressPdf.compress_pdf input_path output_path) w
  = run (write_to writer output_path)
      (set_heap (writer_compress_content_streams L writer h3).1 w).
Proof.
  intros Hread Hparse Hnew Hadd. unfold CompressPdf.compress_pdf.
  rewrite run_bind, run_os_get, Hread.
  rewrite run_bind, run_call, Hparse. cbn [fst snd].
  rewrite run_bind, run_call. cbn [w_heap set_heap]. rewrite Hnew. cbn [fst snd].
  rewrite run_bind, run_for_pages, run_add_pages. cbn [w_heap set_heap].
  rewrite Hadd. cbn [fst snd].
  rewrite run_bind, run_try_pass_call. reflexivity.
Qed.

(** The pipeline either raises before it opens the destination, the
    file system and the streams being as they were, or goes on to the
    writing. *)
Lemma basic_cases input_path output_path w :
  (∃ h e, run (CompressPdf.compress_pdf input_path output_path) w
          = (set_heap h w, Raise e)) ∨
  (∃ (writer : Writer L) h4,
     run (CompressPdf.compress_pdf input_path output_path) w
     = run (write_to writer output_path) (set_heap h4 w)).
Proof.
  destruct (read_file O input_path (w_fs w)) as [data|e] eqn:Hread.
  2: { left. exists (w_heap w), e. rewrite set_heap_heap.
       apply basic_open_fails. exact Hread. }
  destruct (PdfReader L data (w_heap w)) as [h1 [reader|e]] eqn:Hparse.
  2: { left. eexists _, _. eapply basic_parse_fails; eassumption. }
  destruct (PdfWriter L h1) as [h2 [writer|e]] eqn:Hnew.
  2: { left. eexists _, _. eapply basic_new_writer_fails; eassumption. }
  destruct (CompressPdf.add_pages writer (reader_pages L reader h2) h2)
    as [h3 [e|]] eqn:Hadd.
  { left. eexists _, _. eapply basic_add_page_fails; eassumption. }
  right. eexists _, _. eapply basic_reaches_write; eassumption.
Qed.

(** The copy loop on a sequence in two parts. *)
Lemma add_pages_app (writer : Writer L) (before rest : list (Page L)) h :
  CompressPdf.add_pages writer (before ++ rest) h
  = match CompressPdf.add_pages writer before h with
    | (hb, None) => CompressPdf.add_pages writer rest hb
    | (hb, Some e) => (hb, Some e)
    end.
Proof.
  revert h. induction before as [|page before IH]; intros h; [reflexivity|].
  cbn [app CompressPdf.add_pages].
  destruct (add_page L writer page h) as [h1 [u|e]]; [apply IH|reflexivity].
Qed.

(** The writing when the destination cannot be opened, and when it is
    opened. *)
Lemma run_write_to_open_fails (writer : Writer L) (name : string) w e :
  open_wb O name (w_fs w) = Failure e →
  run (write_to writer name) w = (w, Raise e).
Proof. intros Hopen. rewrite run_write_to, Hopen. reflexivity. Qed.

Lemma run_write_to_opened (writer : Writer L) (name : string) w fs1 f :
  open_wb O name (w_fs w) = Success (fs1, f) →
  run (write_to writer name) w
  = (World (write_close O f (write L writer (w_heap w)).2.1 fs1).1
       (write L writer (w_heap w)).1 (w_stdout w) (w_stderr w),
     with_outcome (write_close O f (write L writer (w_heap w)).2.1 fs1).2
       (write L writer (w_heap w)).2.2).
Proof. intros Hopen. rewrite run_write_to, Hopen. reflexivity. Qed.
End BasicSteps.

(** ** The command line of the basic compressor *)

Section BasicMain.
Context {O : os} {L : pypdf}.
Implicit Types (w : state O L) (h : Heap L).

Lemma basic_main_wrong_count (argv : list string) w :
  length argv ≠ 3%nat →
  run (CompressPdf.main argv) w
  = (World (w_fs w) (w_heap w) (w_stdout w)
       (w_stderr w +:+ CompressPdf.usage +:+ newline), Exit 1).
Proof.
  intros Hlen. unfold CompressPdf.main.
  destruct (Nat.eqb_spec (length argv) 3) as [Heq|_]; [contradiction|].
  reflexivity.
Qed.

Lemma basic_main_runs_pipeline (prog input output : string) w :
  run (CompressPdf.main [prog; input; output]) w
  = run (CompressPdf.compress_pdf input output) w.
Proof.
  unfold CompressPdf.main.
  change (negb (length [prog; input; output] =? 3)%nat) with false. cbv iota.
  rewrite run_bind, run_ret.
  rewrite run_bind, (run_item _ 1 input) by reflexivity.
  rewrite run_bind, (run_item _ 2 output) by reflexivity.
  reflexivity.
Qed.
End BasicMain.

(** ** The error policy of the basic pipeline *)

(** C3.  In the basic pipeline, failure to read the source and failure
    to parse it propagate.  Once the pages are copied, the pipeline goes
    on to write the document whatever the compression call did: an
    exception it raised is caught, and what is written is the document
    as the call left it.  Failure to open the destination propagates,
    and so does every failure of the writing: that of the system while
    the file is written and closed, and that of the library. *)
Theorem basic_pipeline_error_policy (O : os) (L : pypdf)
    (input_path output_path : string) (w : state O L) :
  (∀ e, read_file O input_path (w_fs w) = Failure e →
     run (CompressPdf.compress_pdf input_path output_path) w = (w, Raise e)) ∧
  (∀ data h1 e,
     read_file O input_path (w_fs w) = Success data →
     PdfReader L data (w_heap w) = (h1, Failure e) →
     run (CompressPdf.compress_pdf input_path output_path) w
     = (set_heap h1 w, Raise e)) ∧
  (∀ data h1 reader h2 (writer : Writer L) h3 h4 r,
     read_file O input_path (w_fs w) = Success data →
     PdfReader L data (w_heap w) = (h1, Success reader) →
     PdfWriter L h1 = (h2, Success writer) →
     CompressPdf.add_pages writer (reader_pages L reader h2) h2 = (h3, None) →
     writer_compress_content_streams L writer h3 = (h4, r) →
     run (CompressPdf.compress_pdf input_path output_path) w
     = run (write_to writer output_path) (set_heap h4 w) ∧
     (∀ e, open_wb O output_path (w_fs w) = Failure e →
        run (CompressPdf.compress_pdf input_path output_path) w
        = (set_heap h4 w, Raise e)) ∧
     (∀ fs1 f, open_wb O output_path (w_fs w) = Success (fs1, f) →
        let written := write L writer h4 in
        let closed := write_close O f written.2.1 fs1 in
        run (CompressPdf.compress_pdf input_path output_path) w
        = (World closed.1 written.1 (w_stdout w) (w_stderr w),
           with_outcome closed.2 written.2.2) ∧
        (∀ e, closed.2 = Some e →
           (run (CompressPdf.compress_pdf input_path output_path) w).2 = Raise e) ∧
        (∀ e, closed.2 = None → written.2.2 = Some e →
           (run (CompressPdf.compress_pdf input_path output_path) w).2 = Raise e) ∧
        (closed.2 = None → written.2.2 = None →
           (run (CompressPdf.compress_pdf input_path output_path) w).2 = Ok tt))).
Proof.
  split; [|split].
  - intros e. apply basic_open_fails.
  - intros data h1 e. apply basic_parse_fails.
  - intros data h1 reader h2 writer h3 h4 r Hread Hparse Hnew Hadd Hcomp.
    pose proof (basic_reaches_write input_path output_path w data h1 reader
                  h2 writer h3 Hread Hparse Hnew Hadd) as Hrun.
    rewrite Hcomp in Hrun. cbn [fst] in Hrun.
    split; [exact Hrun|]. rewrite Hrun. split.
    + intros e Hopen.
      apply (run_write_to_open_fails writer output_path (set_heap h4 w) e Hopen).
    + intros fs1 f Hopen written closed.
      pose proof (run_write_to_opened writer output_path (set_heap h4 w)
                    fs1 f Hopen) as Hwrite.
      cbn [w_heap set_heap w_stdout w_stderr] in Hwrite.
      fold written in Hwrite. fold closed in Hwrite. rewrite Hwrite. cbn [snd].
      split; [reflexivity|]. split; [|split].
      * intros e ->. reflexivity.
      * intros e -> ->. reflexivity.
      * intros -> ->. reflexivity.
Qed.

Lemma basic_pipeline_error_policy_witness :
  (writer_compress_content_streams ToyPdf.lib tt
     {| ToyPdf.src := ToyPdf.source;
        ToyPdf.doc := map (λ b, (b, false)) ToyPdf.source |}).2
  = Failure (ToyPdf.AttributeError
       "'PdfWriter' object has no attribute 'compress_content_streams'") ∧
  (run (CompressPdf.compress_pdf (O := ToyOS.sys) (L := ToyPdf.lib)
          "in.pdf" "doc.pdf") ToyPdf.world0).2 = Ok tt.
Proof.
  split; [reflexivity|].
  destruct (basic_pipeline_error_policy ToyOS.sys ToyPdf.lib "in.pdf" "doc.pdf"
              ToyPdf.world0) as (_ & _ & Hcopied).
  destruct (Hcopied ToyPdf.source
              {| ToyPdf.src := ToyPdf.source; ToyPdf.doc := [] |} tt
              {| ToyPdf.src := ToyPdf.source; ToyPdf.doc := [] |} tt
              {| ToyPdf.src := ToyPdf.source;
                 ToyPdf.doc := map (λ b, (b, false)) ToyPdf.source |}
              {| ToyPdf.src := ToyPdf.source;
                 ToyPdf.doc := map (λ b, (b, false)) ToyPdf.source |}
              (Failure (ToyPdf.AttributeError
                 "'PdfWriter' object has no attribute 'compress_content_streams'"))
              eq_refl eq_refl eq_refl eq_refl eq_refl)
    as (_ & _ & Hopened).
  destruct (Hopened (<["doc.pdf" := Tree.File []]> ToyPdf.fs0) ["doc.pdf"])
    as (_ & _ & _ & Hok); [reflexivity|].
  apply Hok; reflexivity.
Defined.

(** ** The basic pipeline and the directories *)

(** C10.  The basic pipeline creates no directory: it changes the file
    system through [open] and through the writing only, so that after
    any run the file system is as it was, or as the opening of the
    destination and the writing left it.  On every system that refuses
    to open a file for writing in a directory that does not exist, a
    run whose output path lies in such a directory raises and leaves
    the file system as it was: no output is produced; when the run gets
    as far as opening the destination, the exception is the one of
    [open].  The extended pipeline's stage 5, on the same file system,
    first has the directory created, and opens the destination on the
    file system that [mkdir] left. *)
Theorem basic_pipeline_creates_no_directory (O : os) (L : pypdf)
    (no_parent : Files O → string → Prop)
    (input_path output_path : string) (w : state O L) :
  no_parent_no_open O no_parent →
  no_parent (w_fs w) output_path →
  (∃ e, (run (CompressPdf.compress_pdf input_path output_path) w).2 = Raise e) ∧
  w_fs (run (CompressPdf.compress_pdf input_path output_path) w).1 = w_fs w ∧
  (∀ (writer : Writer L) h4,
     run (CompressPdf.compress_pdf input_path output_path) w
     = run (write_to writer output_path) (set_heap h4 w) →
     ∃ e, open_wb O output_path (w_fs w) = Failure e ∧
          run (CompressPdf.compress_pdf input_path output_path) w
          = (set_heap h4 w, Raise e)) ∧
  (∀ prog,
     exit_status
       (run (CompressPdf.script [prog; input_path; output_path]) w).2 = 1) ∧
  (∀ input_path' output_path' (w0 : state O L),
     w_fs (run (CompressPdf.compress_pdf input_path' output_path') w0).1
     = w_fs w0 ∨
     ∃ fs1 f data,
       open_wb O output_path' (w_fs w0) = Success (fs1, f) ∧
       w_fs (run (CompressPdf.compress_pdf input_path' output_path') w0).1
       = (write_close O f data fs1).1) ∧
  (∀ (writer : Writer L) fs1 u,
     mkdir O (parent O (Path O output_path)) true true (w_fs w)
     = (fs1, Success u) →
     run (PdfCompress.save writer (Path O output_path)) w
     = run (write_to writer (fspath O (Path O output_path))) (set_fs fs1 w)).
Proof.
  intros Hos Hnodir.
  destruct (Hos output_path (w_fs w) Hnodir) as [e0 Hopen].
  assert (Hwrite : ∀ (writer : Writer L) h4,
    run (write_to writer output_path) (set_heap h4 w)
    = (set_heap h4 w, Raise e0)).
  { intros writer h4.
    apply (run_write_to_open_fails writer output_path (set_heap h4 w) e0 Hopen). }
  split; [|split; [|split; [|split; [|split]]]].
  - destruct (basic_cases input_path output_path w)
      as [(h & e & ->) | (writer & h4 & ->)].
    + exists e. reflexivity.
    + rewrite Hwrite. exists e0. reflexivity.
  - destruct (basic_cases input_path output_path w)
      as [(h & e & ->) | (writer & h4 & ->)]; [reflexivity|].
    rewrite Hwrite. reflexivity.
  - intros writer h4 ->. exists e0. split; [exact Hopen|apply Hwrite].
  - intros prog. unfold CompressPdf.script. rewrite basic_main_runs_pipeline.
    destruct (basic_cases input_path output_path w)
      as [(h & e & ->) | (writer & h4 & ->)]; [reflexivity|].
    rewrite Hwrite. reflexivity.
  - intros input_path' output_path' w0.
    destruct (basic_cases input_path' output_path' w0)
      as [(h & e & ->) | (writer & h4 & ->)]; [left; reflexivity|].
    destruct (run_write_to_cases writer output_path' (set_heap h4 w0))
      as [(e & _ & ->) | (fs1 & f & Hopen1 & ->)]; [left; reflexivity|].
    right. exists fs1, f, (write L writer (w_heap (set_heap h4 w0))).2.1.
    split; [exact Hopen1|reflexivity].
  - intros writer fs1 u Hmk. rewrite run_save, Hmk. reflexivity.
Qed.

Lemma basic_pipeline_creates_no_directory_witness :
  Tree.is_dir ToyPdf.fs0 (Tree.parent (Tree.Path "out/doc.pdf")) = false ∧
  run (CompressPdf.compress_pdf (O := ToyOS.sys) (L := ToyPdf.lib)
         "in.pdf" "out/doc.pdf")
    ToyPdf.world0
  = (set_heap {| ToyPdf.src := ToyPdf.source;
                 ToyPdf.doc := map (λ b, (b, false)) ToyPdf.source |}
       ToyPdf.world0, Raise Tree.ENOENT) ∧
  (run (PdfCompress.compress_pdf (O := ToyOS.sys) (L := ToyPdf.lib)
          "in.pdf" "out/doc.pdf" true None) ToyPdf.world0).2 = Ok tt.
Proof.
  split; [reflexivity|].
  destruct (basic_pipeline_creates_no_directory ToyOS.sys ToyPdf.lib
              (λ es name, Tree.is_dir es (Tree.parent (Tree.Path name)) = false)
              "in.pdf" "out/doc.pdf" ToyPdf.world0
              toy_no_parent_no_open eq_refl)
    as (_ & _ & Hopen & _).
  split; [|reflexivity].
  destruct (Hopen tt {| ToyPdf.src := ToyPdf.source;
                        ToyPdf.doc := map (λ b, (b, false)) ToyPdf.source |}
              eq_refl) as (e & He & Hrun).
  rewrite Hrun. injection He as <-. reflexivity.
Defined.

(** ** The pages of the basic pipeline's output *)

Section BasicPages.
Context {O : os} {L : pypdf} {C : Type}.
Context (content : Page L → Heap L → C).
Context (doc_contents : Writer L → Heap L → list C).
Context (Hlib : CompressPdf.page_copying content doc_contents).
Implicit Types (w : state O L) (h : Heap L).

(** The copy loop, when it completes, has appended the contents of the
    pages it was given, in their order. *)
Lemma add_pages_contents (writer : Writer L) (reader : Reader L) h0
    (pages : list (Page L)) h h3 :
  (∀ page, page ∈ pages → page ∈ reader_pages L reader h0) →
  CompressPdf.add_pages writer pages h = (h3, None) →
  doc_contents writer h3
  = doc_contents writer h ++ map (λ page, content page h) pages.
Proof.
  revert h. induction pages as [|page pages IH]; intros h Hsrc Hadd.
  - injection Hadd as <-. simpl. rewrite app_nil_r. reflexivity.
  - cbn [CompressPdf.add_pages] in Hadd.
    destruct (add_page L writer page h) as [h1 [u|e]] eqn:Hpage; [|discriminate].
    rewrite (IH h1); [| |exact Hadd].
    + rewrite (CompressPdf.add_page_appends _ _ Hlib _ _ _ _ _ Hpage).
      rewrite <- app_assoc. cbn [map app]. do 2 f_equal.
      apply map_ext_in. intros q Hq.
      apply (CompressPdf.add_page_frame _ _ Hlib _ _ _ _ _ reader h0 q Hpage).
      apply Hsrc. right. apply list_elem_of_In. exact Hq.
    + intros q Hq. apply Hsrc. right. exact Hq.
Qed.
End BasicPages.

(** C2.  For a valid source of N pages (one that is read and parsed,
    and whose pages are all added to the new writer), the document that
    the basic pipeline hands over to be written has exactly N pages:
    the decoded contents of its pages are the decoded contents of the
    pages of the source, in the order of the source.  When the
    destination is opened, the library writes that document and the
    system stores it, the pipeline returns. *)
Theorem basic_pipeline_preserves_pages (O : os) (L : pypdf) (C : Type)
    (content : Page L → Heap L → C)
    (doc_contents : Writer L → Heap L → list C)
    (input_path output_path : string) (w : state O L)
    (data : bytes) (h1 : Heap L) (reader : Reader L)
    (h2 : Heap L) (writer : Writer L) (h3 : Heap L) :
  CompressPdf.page_copying content doc_contents →
  read_file O input_path (w_fs w) = Success data →
  PdfReader L data (w_heap w) = (h1, Success reader) →
  PdfWriter L h1 = (h2, Success writer) →
  CompressPdf.add_pages writer (reader_pages L reader h2) h2 = (h3, None) →
  ∃ h4,
    run (CompressPdf.compress_pdf input_path output_path) w
    = run (write_to writer output_path) (set_heap h4 w) ∧
    doc_contents writer h4
    = map (λ page, content page h1) (reader_pages L reader h1) ∧
    length (doc_contents writer h4) = length (reader_pages L reader h1) ∧
    (∀ fs1 f, open_wb O output_path (w_fs w) = Success (fs1, f) →
       (write L writer h4).2.2 = None →
       (write_close O f (write L writer h4).2.1 fs1).2 = None →
       run (CompressPdf.compress_pdf input_path output_path) w
       = (World (write_close O f (write L writer h4).2.1 fs1).1
            (write L writer h4).1 (w_stdout w) (w_stderr w), Ok tt)).
Proof.
  intros Hlib Hread Hparse Hnew Hcopy.
  destruct (CompressPdf.new_writer_frame _ _ Hlib _ _ _ reader Hnew)
    as [Hpages Hframe].
  pose proof (add_pages_contents content doc_contents Hlib writer reader h2
                (reader_pages L reader h2) h2 h3 (λ _ Hpage, Hpage) Hcopy)
    as Hdoc.
  pose proof (basic_reaches_write input_path output_path w data h1 reader
                h2 writer h3 Hread Hparse Hnew Hcopy) as Hrun.
  destruct (writer_compress_content_streams L writer h3) as [h4 r] eqn:Hcomp.
  cbn [fst] in Hrun.
  assert (Hcontents :
    doc_contents writer h4
    = map (λ page, content page h1) (reader_pages L reader h1)).
  { rewrite (CompressPdf.compress_keeps _ _ Hlib _ _ _ _ Hcomp), Hdoc.
    rewrite (CompressPdf.new_writer_empty _ _ Hlib _ _ _ Hnew), Hpages. cbn [app].
    apply map_ext_in. intros page Hpage. apply Hframe.
    apply list_elem_of_In. exact Hpage. }
  exists h4. split; [exact Hrun|]. split; [exact Hcontents|]. split.
  - rewrite Hcontents. apply length_map.
  - intros fs1 f Hopen Hwritten Hclosed. rewrite Hrun.
    rewrite (run_write_to_opened writer output_path (set_heap h4 w) fs1 f Hopen).
    cbn [w_heap set_heap w_stdout w_stderr].
    rewrite Hwritten, Hclosed. reflexivity.
Qed.

(** The small library copies pages as the pipeline expects. *)
Lemma toy_page_copying :
  CompressPdf.page_copying (L := ToyPdf.lib) ToyPdf.content ToyPdf.doc_contents.
Proof.
  split.
  - intros h h' writer [= <- _]. reflexivity.
  - intros h h' r reader [= <- _]. split; [reflexivity|].
    intros page Hpage. unfold reader_pages, ToyPdf.lib, ToyPdf.pages_of in Hpage.
    apply list_elem_of_fmap in Hpage as (i & -> & _). reflexivity.
  - intros writer [i|i] h h' u; cbn.
    + destruct (ToyPdf.src h !! i) as [b|] eqn:Hb; [|discriminate].
      intros [= <-]. unfold ToyPdf.doc_contents. cbn.
      rewrite map_app. reflexivity.
    + discriminate.
  - intros writer page h h' r reader h0 page' Hadd Hpage'.
    unfold reader_pages, ToyPdf.lib, ToyPdf.pages_of in Hpage'.
    apply list_elem_of_fmap in Hpage' as (i & -> & _).
    destruct page as [j|j]; cbn in Hadd.
    + destruct (ToyPdf.src h !! j); injection Hadd as <- _; reflexivity.
    + injection Hadd as <- _. reflexivity.
  - intros writer h h' r [= <- _]. reflexivity.
Qed.

Lemma basic_pipeline_preserves_pages_witness :
  ∃ h4,
    run (CompressPdf.compress_pdf (O := ToyOS.sys) (L := ToyPdf.lib)
           "in.pdf" "doc.pdf")
      ToyPdf.world0
    = run (write_to (O := ToyOS.sys) (L := ToyPdf.lib) tt "doc.pdf")
        (set_heap h4 ToyPdf.world0) ∧
    ToyPdf.doc_contents tt h4
    = [Some Byte.x61; Some ToyPdf.b_f; Some ToyPdf.b_i; Some Byte.x62].
Proof.
  destruct (basic_pipeline_preserves_pages ToyOS.sys ToyPdf.lib (option Byte.byte)
              ToyPdf.content ToyPdf.doc_contents "in.pdf" "doc.pdf"
              ToyPdf.world0 ToyPdf.source
              {| ToyPdf.src := ToyPdf.source; ToyPdf.doc := [] |} tt
              {| ToyPdf.src := ToyPdf.source; ToyPdf.doc := [] |} tt
              {| ToyPdf.src := ToyPdf.source;
                 ToyPdf.doc := map (λ b, (b, false)) ToyPdf.source |}
              toy_page_copying eq_refl eq_refl eq_refl eq_refl)
    as (h4 & Hrun & Hdoc & _).
  exists h4. split; [exact Hrun|exact Hdoc].
Defined.

(** ** The exit status of the basic compressor *)

(** C6, as the code has it.  The basic compressor counts the entries of
    its argument vector, the name of the script included.  When they
    are not 3, so with one argument and with any number of arguments
    other than two, it prints its usage to the error stream and exits
    with 1.  With two arguments it runs the pipeline on the two paths,
    and exits with 0 when the input is valid and the output is written:
    the source is read and parsed, its pages are added, the destination
    is opened, and the document is written and the file closed without
    an exception. *)
Theorem basic_cli_exit_codes (O : os) (L : pypdf) (argv : list string)
    (w : state O L) :
  (length argv ≠ 3%nat →
   run (CompressPdf.script argv) w
   = (World (w_fs w) (w_heap w) (w_stdout w)
        (w_stderr w +:+ CompressPdf.usage +:+ newline), Exit 1) ∧
   exit_status (run (CompressPdf.script argv) w).2 = 1) ∧
  (∀ prog input output,
     argv = [prog; input; output] →
     run (CompressPdf.script argv) w
     = run (CompressPdf.compress_pdf input output) w ∧
     (∀ data h1 reader h2 (writer : Writer L) h3 fs1 f,
        read_file O input (w_fs w) = Success data →
        PdfReader L data (w_heap w) = (h1, Success reader) →
        PdfWriter L h1 = (h2, Success writer) →
        CompressPdf.add_pages writer (reader_pages L reader h2) h2 = (h3, None) →
        open_wb O output (w_fs w) = Success (fs1, f) →
        let written :=
          write L writer (writer_compress_content_streams L writer h3).1 in
        written.2.2 = None →
        (write_close O f written.2.1 fs1).2 = None →
        (run (CompressPdf.script argv) w).2 = Ok tt ∧
        exit_status (run (CompressPdf.script argv) w).2 = 0)).
Proof.
  split.
  - intros Hlen. unfold CompressPdf.script.
    rewrite (basic_main_wrong_count argv w Hlen). split; reflexivity.
  - intros prog input output ->.
    assert (Hscript :
      run (CompressPdf.script [prog; input; output]) w
      = run (CompressPdf.compress_pdf input output) w).
    { apply basic_main_runs_pipeline. }
    split; [exact Hscript|].
    intros data h1 reader h2 writer h3 fs1 f Hread Hparse Hnew Hadd Hopen
      written Hwritten Hclosed.
    rewrite Hscript.
    rewrite (basic_reaches_write input output w data h1 reader h2 writer h3
               Hread Hparse Hnew Hadd).
    rewrite (run_write_to_opened writer output
               (set_heap (writer_compress_content_streams L writer h3).1 w)
               fs1 f Hopen).
    cbn [w_heap set_heap snd]. fold written. rewrite Hwritten, Hclosed.
    split; reflexivity.
Qed.

Lemma basic_cli_exit_codes_witness :
  exit_status (run (CompressPdf.script (O := ToyOS.sys) (L := ToyPdf.lib)
                      ["compress_pdf.py"; "in.pdf"]) ToyPdf.world0).2 = 1 ∧
  w_stderr (run (CompressPdf.script (O := ToyOS.sys) (L := ToyPdf.lib)
                   ["compress_pdf.py"; "in.pdf"]) ToyPdf.world0).1
  = CompressPdf.usage +:+ newline ∧
  exit_status (run (CompressPdf.script (O := ToyOS.sys) (L := ToyPdf.lib)
                      ["compress_pdf.py"; "in.pdf"; "doc.pdf"]) ToyPdf.world0).2
  = 0.
Proof.
  destruct (basic_cli_exit_codes ToyOS.sys ToyPdf.lib
              ["compress_pdf.py"; "in.pdf"] ToyPdf.world0) as [Hwrong _].
  destruct Hwrong as [Hrun Hstatus]; [discriminate|].
  split; [exact Hstatus|]. split; [rewrite Hrun; reflexivity|].
  destruct (basic_cli_exit_codes ToyOS.sys ToyPdf.lib
              ["compress_pdf.py"; "in.pdf"; "doc.pdf"] ToyPdf.world0)
    as [_ Hvalid].
  destruct (Hvalid "compress_pdf.py" "in.pdf" "doc.pdf" eq_refl) as [_ Hok].
  apply (Hok ToyPdf.source
           {| ToyPdf.src := ToyPdf.source; ToyPdf.doc := [] |} tt
           {| ToyPdf.src := ToyPdf.source; ToyPdf.doc := [] |} tt
           {| ToyPdf.src := ToyPdf.source;
              ToyPdf.doc := map (λ b, (b, false)) ToyPdf.source |}
           (<["doc.pdf" := Tree.File []]> ToyPdf.fs0) ["doc.pdf"]);
    reflexivity.
Defined.

(** C6, as the specification has it, fails twice.  With three
    arguments, the input path being valid, as the run with two
    arguments shows, the compressor prints its usage and exits with 1.
    And with two arguments and the same valid input path it exits with
    1 when the output path lies in a directory that does not exist. *)
Lemma basic_cli_exit_codes_counterexample :
  (run (CompressPdf.script (O := ToyOS.sys) (L := ToyPdf.lib)
          ["compress_pdf.py"; "in.pdf"; "doc.pdf"]) ToyPdf.world0).2 = Ok tt ∧
  run (CompressPdf.script (O := ToyOS.sys) (L := ToyPdf.lib)
         ["compress_pdf.py"; "in.pdf"; "doc.pdf"; "more.pdf"]) ToyPdf.world0
  = (World ToyPdf.fs0 ToyPdf.heap0 "" (CompressPdf.usage +:+ newline), Exit 1) ∧
  exit_status
    (run (CompressPdf.script (O := ToyOS.sys) (L := ToyPdf.lib)
            ["compress_pdf.py"; "in.pdf"; "doc.pdf"; "more.pdf"])
       ToyPdf.world0).2 = 1 ∧
  (run (CompressPdf.script (O := ToyOS.sys) (L := ToyPdf.lib)
          ["compress_pdf.py"; "in.pdf"; "out/doc.pdf"]) ToyPdf.world0).2
  = Raise Tree.ENOENT ∧
  exit_status
    (run (CompressPdf.script (O := ToyOS.sys) (L := ToyPdf.lib)
            ["compress_pdf.py"; "in.pdf"; "out/doc.pdf"]) ToyPdf.world0).2 = 1.
Proof. repeat split; vm_compute; reflexivity. Qed.

(** ** The renderers *)

Section Rendering.
Context {F : Type} {R : rdkit}.
Implicit Types (w : world F (RHeap R)).

Lemma run_smiles_to_svg (smiles : string) (width height : Z) w :
  run (Render.smiles_to_svg smiles width height) w
  = (set_heap (drawing R smiles width height (w_heap w)).1 w,
     match (drawing R smiles width height (w_heap w)).2 with
     | Success svg => Ok svg
     | Failure e => Raise e
     end).
Proof.
  unfold Render.smiles_to_svg, drawing. rewrite run_bind, run_call.
  destruct (MolFromSmiles R smiles (w_heap w)) as [h1 [[mol|]|e]];
    cbn [fst snd]; try reflexivity.
  rewrite run_bind, run_call. cbn [w_heap set_heap].
  destruct (MolDraw2DSVG R width height h1) as [h2 [d2d|e]];
    cbn [fst snd]; try reflexivity.
  rewrite run_bind, run_call. cbn [w_heap set_heap].
  destruct (DrawMolecule R d2d mol h2) as [h3 [[]|e]];
    cbn [fst snd]; try reflexivity.
  rewrite run_bind, run_call. cbn [w_heap set_heap].
  destruct (FinishDrawing R d2d h3) as [h4 [[]|e]];
    cbn [fst snd]; try reflexivity.
  rewrite run_bind, run_call. cbn [w_heap set_heap].
  destruct (GetDrawingText R d2d h4) as [h5 [svg|e]]; reflexivity.
Qed.

(** The path operation returns the drawing in a response, or raises an
    [HTTPException] with status 400 and the message of the exception
    that ended the drawing. *)
Lemma run_svg (smiles : string) w :
  run (Service.svg smiles) w
  = (set_heap (drawing R smiles 400 300 (w_heap w)).1 w,
     match (drawing R smiles 400 300 (w_heap w)).2 with
     | Success text =>
         Ok {| Service.content := text; Service.status_code := 200;
               Service.media_type := "image/svg+xml" |}
     | Failure e => Raise (HTTPException 400 (str e))
     end).
Proof.
  unfold Service.svg, try_except, drawing, run.
  unfold bind at 1. unfold call at 1.
  destruct (MolFromSmiles R smiles (w_heap w)) as [h1 [[mol|]|e]];
    cbn [fst snd]; try reflexivity.
  unfold bind at 1. unfold call at 1. cbn [w_heap set_heap].
  destruct (MolDraw2DSVG R 400 300 h1) as [h2 [d2d|e]];
    cbn [fst snd]; try reflexivity.
  unfold bind at 1. unfold call at 1. cbn [w_heap set_heap].
  destruct (DrawMolecule R d2d mol h2) as [h3 [[]|e]];
    cbn [fst snd]; try reflexivity.
  unfold bind at 1. unfold call at 1. cbn [w_heap set_heap].
  destruct (FinishDrawing R d2d h3) as [h4 [[]|e]];
    cbn [fst snd]; try reflexivity.
  unfold bind at 1. unfold call at 1. cbn [w_heap set_heap].
  destruct (GetDrawingText R d2d h4) as [h5 [svg|e]]; reflexivity.
Qed.
End Rendering.

(** C8.  [GET /svg]: when the drawing of the structure at 400 by 300
    comes out, the answer is a 200 with the text of the drawing as its
    body and the media type [image/svg+xml]; when the structure does not
    parse, or when a call of the library raises during the rendering,
    the answer is a 400 with a JSON body whose detail is the message of
    the failure.  The answer is never a 500. *)
Theorem svg_endpoint (F : Type) (R : rdkit) (smiles : string)
    (w : world F (RHeap R)) :
  (∀ text, (drawing R smiles 400 300 (w_heap w)).2 = Success text →
     Service.get_svg smiles w
     = {| Service.status := 200; Service.content_type := "image/svg+xml";
          Service.payload := Service.Raw text |}) ∧
  (∀ e, (drawing R smiles 400 300 (w_heap w)).2 = Failure e →
     Service.get_svg smiles w
     = {| Service.status := 400; Service.content_type := "application/json";
          Service.payload := Service.JsonDetail (str e) |}) ∧
  (∀ h1, MolFromSmiles R smiles (w_heap w) = (h1, Success None) →
     Service.get_svg smiles w
     = {| Service.status := 400; Service.content_type := "application/json";
          Service.payload := Service.JsonDetail "Invalid SMILES" |}) ∧
  (∀ h1 e, MolFromSmiles R smiles (w_heap w) = (h1, Failure e) →
     Service.get_svg smiles w
     = {| Service.status := 400; Service.content_type := "application/json";
          Service.payload := Service.JsonDetail (str e) |}) ∧
  (Service.status (Service.get_svg smiles w) = 200 ∨
   Service.status (Service.get_svg smiles w) = 400) ∧
  Service.status (Service.get_svg smiles w) ≠ 500.
Proof.
  unfold Service.get_svg. rewrite run_svg. cbn [snd].
  split; [|split; [|split; [|split; [|split]]]].
  - intros text ->. reflexivity.
  - intros e ->. reflexivity.
  - intros h1 Hmol. unfold drawing. rewrite Hmol. reflexivity.
  - intros h1 e Hmol. unfold drawing. rewrite Hmol. reflexivity.
  - destruct (drawing R smiles 400 300 (w_heap w)).2; [left|right]; reflexivity.
  - destruct (drawing R smiles 400 300 (w_heap w)).2; discriminate.
Qed.

Lemma svg_endpoint_witness :
  Service.get_svg (F := unit) (R := ToyChem.lib "") "c1ccccc1" ToyChem.world0
  = {| Service.status := 200; Service.content_type := "image/svg+xml";
       Service.payload :=
         Service.Raw "<svg width='400px' height='300px'></svg>" |} ∧
  Service.get_svg (F := unit) (R := ToyChem.lib "") "zzz" ToyChem.world0
  = {| Service.status := 400; Service.content_type := "application/json";
       Service.payload := Service.JsonDetail "Invalid SMILES" |} ∧
  Service.get_svg (F := unit) (R := ToyChem.lib "") "boom" ToyChem.world0
  = {| Service.status := 400; Service.content_type := "application/json";
       Service.payload := Service.JsonDetail "Pre-condition Violation" |}.
Proof.
  split; [|split].
  - apply (svg_endpoint unit (ToyChem.lib "") "c1ccccc1" ToyChem.world0).
    reflexivity.
  - destruct (svg_endpoint unit (ToyChem.lib "") "zzz" ToyChem.world0)
      as (_ & _ & Hnone & _).
    apply (Hnone tt). reflexivity.
  - destruct (svg_endpoint unit (ToyChem.lib "") "boom" ToyChem.world0)
      as (_ & _ & _ & Hraise & _).
    apply (Hraise tt (PyExc "RuntimeError" "Pre-condition Violation")).
    reflexivity.
Defined.

(** ** The command line of the renderer *)

Section RenderMain.
Context {F : Type} {R : rdkit}.
Implicit Types (w : world F (RHeap R)).

Lemma render_main_too_few (argv : list string) w :
  (length argv < 2)%nat →
  run (Render.main argv) w
  = (World (w_fs w) (w_heap w) (w_stdout w)
       (w_stderr w +:+ Render.usage +:+ newline), Ok 2).
Proof.
  intros Hlen. unfold Render.main.
  destruct (Nat.ltb_spec (length argv) 2) as [_|Hge]; [|lia].
  reflexivity.
Qed.

(** With a structure and sizes that are absent or integer literals,
    [main] draws at these sizes, 400 by 300 by default, and prints the
    drawing or the error. *)
Lemma render_main_draws (prog smiles : string) (rest : list string)
    (width height : Z) w :
  match rest with
  | [] => width = 400 ∧ height = 300
  | [a] => PyInt.int a = Success width ∧ height = 300
  | a :: b :: _ => PyInt.int a = Success width ∧ PyInt.int b = Success height
  end →
  run (Render.main (prog :: smiles :: rest)) w
  = match (drawing R smiles width height (w_heap w)).2 with
    | Success svg =>
        (World (w_fs w) (drawing R smiles width height (w_heap w)).1
           (w_stdout w
            +:+ (if startswith (lstrip svg) "<?xml" then svg
                 else Render.xml_header +:+ svg)
            +:+ newline)
           (w_stderr w), Ok 0)
    | Failure e =>
        (World (w_fs w) (drawing R smiles width height (w_heap w)).1
           (w_stdout w)
           (w_stderr w +:+ ("ERROR: " +:+ str e) +:+ newline), Ok 1)
    end.
Proof.
  intros Hsize.
  assert (Hbody : ∀ w0,
    run (try_except
           (let* svg := Render.smiles_to_svg smiles width height in
            let svg := if negb (startswith (lstrip svg) "<?xml")
                       then Render.xml_header +:+ svg else svg in
            print svg ;;; ret 0)
           (λ exc, print_err ("ERROR: " +:+ str exc) ;;; ret 1)) w0
    = match (drawing R smiles width height (w_heap w0)).2 with
      | Success svg =>
          (World (w_fs w0) (drawing R smiles width height (w_heap w0)).1
             (w_stdout w0
              +:+ (if startswith (lstrip svg) "<?xml" then svg
                   else Render.xml_header +:+ svg)
              +:+ newline)
             (w_stderr w0), Ok 0)
      | Failure e =>
          (World (w_fs w0) (drawing R smiles width height (w_heap w0)).1
             (w_stdout w0)
             (w_stderr w0 +:+ ("ERROR: " +:+ str e) +:+ newline), Ok 1)
      end).
  { intros w0. unfold try_except, run. unfold bind at 1.
    pose proof (run_smiles_to_svg smiles width height w0) as Hdraw.
    unfold run in Hdraw. rewrite Hdraw.
    destruct (drawing R smiles width height (w_heap w0)) as [h1 [svg|e]];
      cbn [fst snd]; [|reflexivity].
    destruct (startswith (lstrip svg) "<?xml"); reflexivity. }
  unfold Render.main.
  destruct (Nat.ltb_spec (length (prog :: smiles :: rest)) 2)
    as [Hlt|_]; [simpl in Hlt; lia|].
  rewrite run_bind, (run_item _ 1 smiles) by reflexivity.
  rewrite run_bind.
  destruct rest as [|a [|b rest]].
  - destruct Hsize as [-> ->].
    change (2 <? length [prog; smiles])%nat with false.
    change (3 <? length [prog; smiles])%nat with false. cbv iota.
    rewrite run_ret, run_bind, run_ret. apply Hbody.
  - destruct Hsize as [Hw ->].
    change (2 <? length [prog; smiles; a])%nat with true.
    change (3 <? length [prog; smiles; a])%nat with false. cbv iota.
    rewrite run_bind, (run_item _ 2 a) by reflexivity.
    rewrite run_int, Hw, run_bind, run_ret. apply Hbody.
  - destruct Hsize as [Hw Hh].
    destruct (Nat.ltb_spec 2 (length (prog :: smiles :: a :: b :: rest)))
      as [_|Hge]; [|simpl in Hge; lia].
    destruct (Nat.ltb_spec 3 (length (prog :: smiles :: a :: b :: rest)))
      as [_|Hge]; [|simpl in Hge; lia].
    rewrite run_bind, (run_item _ 2 a) by reflexivity.
    rewrite run_int, Hw, run_bind.
    rewrite run_bind, (run_item _ 3 b) by reflexivity.
    rewrite run_int, Hh. apply Hbody.
Qed.
End RenderMain.

Section RenderEdges.
Context {F : Type} {R : rdkit}.
Implicit Types (w : world F (RHeap R)).

Lemma render_main_bad_width (prog smiles a : string) (rest : list string) w e :
  PyInt.int a = Failure e →
  run (Render.main (prog :: smiles :: a :: rest)) w = (w, Raise e).
Proof.
  intros Hint. unfold Render.main.
  destruct (Nat.ltb_spec (length (prog :: smiles :: a :: rest)) 2)
    as [Hlt|_]; [simpl in Hlt; lia|].
  destruct (Nat.ltb_spec 2 (length (prog :: smiles :: a :: rest)))
    as [_|Hge]; [|simpl in Hge; lia].
  rewrite run_bind, (run_item _ 1 smiles) by reflexivity.
  rewrite run_bind, run_bind, (run_item _ 2 a) by reflexivity.
  rewrite run_int, Hint. reflexivity.
Qed.

Lemma render_main_bad_height (prog smiles a b : string) (rest : list string)
    (width : Z) w e :
  PyInt.int a = Success width →
  PyInt.int b = Failure e →
  run (Render.main (prog :: smiles :: a :: b :: rest)) w = (w, Raise e).
Proof.
  intros Hw Hh. unfold Render.main.
  destruct (Nat.ltb_spec (length (prog :: smiles :: a :: b :: rest)) 2)
    as [Hlt|_]; [simpl in Hlt; lia|].
  destruct (Nat.ltb_spec 2 (length (prog :: smiles :: a :: b :: rest)))
    as [_|Hge]; [|simpl in Hge; lia].
  destruct (Nat.ltb_spec 3 (length (prog :: smiles :: a :: b :: rest)))
    as [_|Hge]; [|simpl in Hge; lia].
  rewrite run_bind, (run_item _ 1 smiles) by reflexivity.
  rewrite run_bind, run_bind, (run_item _ 2 a) by reflexivity.
  rewrite run_int, Hw, run_bind.
  rewrite run_bind, (run_item _ 3 b) by reflexivity.
  rewrite run_int, Hh. reflexivity.
Qed.

(** With a structure, [main] either raises on a size before it does
    anything, or draws at some size and prints the drawing or the
    error. *)
Lemma render_main_cases (prog smiles : string) (rest : list string) w :
  (∃ e, run (Render.main (prog :: smiles :: rest)) w = (w, Raise e)) ∨
  (∃ width height,
     run (Render.main (prog :: smiles :: rest)) w
     = match (drawing R smiles width height (w_heap w)).2 with
       | Success svg =>
           (World (w_fs w) (drawing R smiles width height (w_heap w)).1
              (w_stdout w
               +:+ (if startswith (lstrip svg) "<?xml" then svg
                    else Render.xml_header +:+ svg)
               +:+ newline)
              (w_stderr w), Ok 0)
       | Failure e =>
           (World (w_fs w) (drawing R smiles width height (w_heap w)).1
              (w_stdout w)
              (w_stderr w +:+ ("ERROR: " +:+ str e) +:+ newline), Ok 1)
       end).
Proof.
  destruct rest as [|a [|b rest]].
  - right. exists 400, 300. apply render_main_draws. split; reflexivity.
  - destruct (PyInt.int a) as [width|e] eqn:Hw.
    + right. exists width, 300. apply render_main_draws. split; [exact Hw|reflexivity].
    + left. exists e. apply render_main_bad_width. exact Hw.
  - destruct (PyInt.int a) as [width|e] eqn:Hw.
    + destruct (PyInt.int b) as [height|e] eqn:Hh.
      * right. exists width, height. apply render_main_draws.
        split; [exact Hw|exact Hh].
      * left. exists e. eapply render_main_bad_height; eassumption.
    + left. exists e. apply render_main_bad_width. exact Hw.
Qed.

Lemma run_program_imported (argv : list string) w :
  run (RenderScript.program (Success tt) argv) w = run (Render.script argv) w.
Proof. reflexivity. Qed.

Lemma run_program_not_imported (argv : list string) w e :
  run (RenderScript.program (Failure e) argv) w
  = (World (w_fs w) (w_heap w) (w_stdout w)
       (w_stderr w +:+ ("ERROR: rdkit import failed: " +:+ str e) +:+ newline),
     Exit 2).
Proof. reflexivity. Qed.
End RenderEdges.

(** C7, as the code has it.  The renderer exits with 2, after printing
    its usage to the error stream, when no structure is given.  With a
    structure, and a width and a height that are absent or integer
    literals, it draws at that size, 400 by 300 by default.  When the
    drawing comes out it prints it to the standard output and exits
    with 0.  A text that starts with [<?xml] is printed as it is, and a
    text that does not is printed after an XML declaration; the code
    looks for [<?xml] behind the leading white space of the text, so
    that the second holds of a text without leading white space, as
    the text of a drawing is.  When the structure does not parse, or a
    call of the library raises, it prints [ERROR: ] and the message to
    the error stream and exits with 1.  A width or a height that is not
    an integer literal is converted outside the guarded block: the
    [ValueError] of [int] leaves [main], which has printed nothing and
    has not called the library, and the exit status is 1. *)
Theorem render_cli (F : Type) (R : rdkit) (argv : list string)
    (w : world F (RHeap R)) :
  ((length argv < 2)%nat →
   run (Render.main argv) w
   = (World (w_fs w) (w_heap w) (w_stdout w)
        (w_stderr w +:+ Render.usage +:+ newline), Ok 2) ∧
   exit_status (run (Render.script argv) w).2 = 2) ∧
  (∀ prog smiles rest width height,
     argv = prog :: smiles :: rest →
     match rest with
     | [] => width = 400 ∧ height = 300
     | [a] => PyInt.int a = Success width ∧ height = 300
     | a :: b :: _ => PyInt.int a = Success width ∧ PyInt.int b = Success height
     end →
     (∀ svg, (drawing R smiles width height (w_heap w)).2 = Success svg →
        run (Render.main argv) w
        = (World (w_fs w) (drawing R smiles width height (w_heap w)).1
             (w_stdout w
              +:+ (if startswith (lstrip svg) "<?xml" then svg
                   else Render.xml_header +:+ svg)
              +:+ newline)
             (w_stderr w), Ok 0) ∧
        exit_status (run (Render.script argv) w).2 = 0) ∧
     (∀ e, (drawing R smiles width height (w_heap w)).2 = Failure e →
        run (Render.main argv) w
        = (World (w_fs w) (drawing R smiles width height (w_heap w)).1
             (w_stdout w)
             (w_stderr w +:+ ("ERROR: " +:+ str e) +:+ newline), Ok 1) ∧
        exit_status (run (Render.script argv) w).2 = 1) ∧
     (∀ h1, MolFromSmiles R smiles (w_heap w) = (h1, Success None) →
        (drawing R smiles width height (w_heap w)).2
        = Failure (ValueError "Invalid SMILES"))) ∧
  (∀ svg, startswith svg "<?xml" = true →
     (if startswith (lstrip svg) "<?xml" then svg
      else Render.xml_header +:+ svg) = svg) ∧
  (∀ svg, startswith svg "<?xml" = false → lstrip svg = svg →
     (if startswith (lstrip svg) "<?xml" then svg
      else Render.xml_header +:+ svg) = Render.xml_header +:+ svg) ∧
  (∀ svg, startswith (Render.xml_header +:+ svg) "<?xml" = true) ∧
  (∀ prog smiles a rest e,
     argv = prog :: smiles :: a :: rest →
     PyInt.int a = Failure e →
     exn_class e = "ValueError" ∧
     run (Render.main argv) w = (w, Raise e) ∧
     exit_status (run (Render.script argv) w).2 = 1) ∧
  (∀ prog smiles a b rest width e,
     argv = prog :: smiles :: a :: b :: rest →
     PyInt.int a = Success width →
     PyInt.int b = Failure e →
     exn_class e = "ValueError" ∧
     run (Render.main argv) w = (w, Raise e) ∧
     exit_status (run (Render.script argv) w).2 = 1).
Proof.
  split; [|split; [|split; [|split; [|split; [|split]]]]].
  - intros Hlen. pose proof (render_main_too_few argv w Hlen) as Hmain.
    split; [exact Hmain|].
    unfold Render.script. rewrite run_bind, Hmain. reflexivity.
  - intros prog smiles rest width height -> Hsize.
    pose proof (render_main_draws prog smiles rest width height w Hsize)
      as Hmain.
    split; [|split].
    + intros svg Hsvg. rewrite Hsvg in Hmain. split; [exact Hmain|].
      unfold Render.script. rewrite run_bind, Hmain. reflexivity.
    + intros e He. rewrite He in Hmain. split; [exact Hmain|].
      unfold Render.script. rewrite run_bind, Hmain. reflexivity.
    + intros h1 Hmol. unfold drawing. rewrite Hmol. reflexivity.
  - intros svg Hstart. rewrite (startswith_xml_lstrip svg Hstart), Hstart.
    reflexivity.
  - intros svg Hstart ->. rewrite Hstart. reflexivity.
  - intros svg. reflexivity.
  - intros prog smiles a rest e -> Hint.
    pose proof (render_main_bad_width prog smiles a rest w e Hint) as Hmain.
    split; [exact (int_raises_ValueError a e Hint)|]. split; [exact Hmain|].
    unfold Render.script. rewrite run_bind, Hmain. reflexivity.
  - intros prog smiles a b rest width e -> Hw Hh.
    pose proof (render_main_bad_height prog smiles a b rest width w e Hw Hh)
      as Hmain.
    split; [exact (int_raises_ValueError b e Hh)|]. split; [exact Hmain|].
    unfold Render.script. rewrite run_bind, Hmain. reflexivity.
Qed.

Lemma render_cli_witness :
  run (Render.main (F := unit) (R := ToyChem.lib "") ["render.py"; "CCO"])
    ToyChem.world0
  = (World tt tt
       (Render.xml_header +:+ "<svg width='400px' height='300px'></svg>"
        +:+ newline) "", Ok 0) ∧
  run (Render.main (F := unit) (R := ToyChem.lib "")
         ["render.py"; "not-a-smiles"])
    ToyChem.world0
  = (World tt tt "" ("ERROR: Invalid SMILES" +:+ newline), Ok 1).
Proof.
  split.
  - destruct (render_cli unit (ToyChem.lib "") ["render.py"; "CCO"]
                ToyChem.world0) as (_ & Hdraw & _).
    destruct (Hdraw "render.py" "CCO" [] 400 300 eq_refl (conj eq_refl eq_refl))
      as (Hok & _).
    apply (Hok "<svg width='400px' height='300px'></svg>"). reflexivity.
  - destruct (render_cli unit (ToyChem.lib "") ["render.py"; "not-a-smiles"]
                ToyChem.world0) as (_ & Hdraw & _).
    destruct (Hdraw "render.py" "not-a-smiles" [] 400 300 eq_refl
                (conj eq_refl eq_refl)) as (_ & Herr & _).
    apply (Herr (ValueError "Invalid SMILES")). reflexivity.
Defined.

(** C7, as the specification has it, fails on a size that is not an
    integer literal.  With the valid structure [CCO] and the width
    [wide], the renderer prints no drawing and does not exit with 0;
    with a structure that does not parse and the same width, it prints
    no line [ERROR: ].  In both runs [int] raises out of [main], nothing
    is printed, and the exit status is 1. *)
Lemma render_cli_counterexample :
  MolFromSmiles (ToyChem.lib "") "CCO" tt = (tt, Success (Some "CCO")) ∧
  run (Render.main (F := unit) (R := ToyChem.lib "") ["render.py"; "CCO"; "wide"])
    ToyChem.world0
  = (World tt tt "" "", Raise (PyInt.invalid_literal "wide")) ∧
  exit_status
    (run (Render.script (F := unit) (R := ToyChem.lib "")
            ["render.py"; "CCO"; "wide"]) ToyChem.world0).2 = 1 ∧
  MolFromSmiles (ToyChem.lib "") "not-a-smiles" tt = (tt, Success None) ∧
  run (Render.main (F := unit) (R := ToyChem.lib "")
         ["render.py"; "not-a-smiles"; "wide"])
    ToyChem.world0
  = (World tt tt "" "", Raise (PyInt.invalid_literal "wide")).
Proof. repeat split; vm_compute; reflexivity. Qed.

(** ** The test doubles at work *)

Example toy_extended_run :
  let r := run (PdfCompress.compress_pdf (O := ToyOS.sys) (L := ToyPdf.lib)
                  "in.pdf" "out/deep/doc.pdf" true (Some 50)) ToyPdf.world0 in
  r.2 = Ok tt ∧
  Tree.read (w_fs r.1) ["out"; "deep"; "doc.pdf"]
  = Some [Byte.x61; ToyPdf.b_z; ToyPdf.b_f; ToyPdf.b_q; ToyPdf.b_z; Byte.x62; ToyPdf.b_z].
Proof. vm_compute. split; reflexivity. Qed.

Example toy_basic_run :
  let r := run (CompressPdf.compress_pdf (O := ToyOS.sys) (L := ToyPdf.lib)
                  "in.pdf" "doc.pdf") ToyPdf.world0 in
  r.2 = Ok tt ∧ Tree.read (w_fs r.1) ["doc.pdf"] = Some ToyPdf.source.
Proof. vm_compute. split; reflexivity. Qed.

Example toy_render_run :
  (run (Render.main (F := unit) (R := ToyChem.lib "") ["render.py"; "CCO"])
     ToyChem.world0).2
  = Ok 0.
Proof. vm_compute. reflexivity. Qed.

Example toy_torn_run :
  let r := run (CompressPdf.compress_pdf (O := ToyOS.sys) (L := ToyTorn.lib)
                  "in.pdf" "doc.pdf") ToyPdf.world0 in
  r.2 = Raise ToyTorn.PdfWriteError ∧
  Tree.read (w_fs r.1) ["doc.pdf"] = Some [Byte.x61].
Proof. vm_compute. split; reflexivity. Qed.

(** * More of the programs

    What follows goes beyond the statements of the specification: what
    the two pipelines leave behind when they fail, what their exit
    status certifies, and how the command lines behave at their
    edges. *)

(** ** The image stage stops at the first enumeration that raises *)

Section ImageStage.
Context {O : os} {L : pypdf}.
Implicit Types (w : state O L) (h : Heap L).

Lemma recompress_pages_app (quality : Z) (before rest : list (Page L)) h :
  (∀ b1 page b2, before = b1 ++ page :: b2 →
     (PdfCompress.recompress_page quality page
        (PdfCompress.recompress_pages quality b1 h)).2 = None) →
  PdfCompress.recompress_pages quality (before ++ rest) h
  = PdfCompress.recompress_pages quality rest
      (PdfCompress.recompress_pages quality before h).
Proof.
  revert h. induction before as [|page0 before IH]; intros h Hok; [reflexivity|].
  pose proof (Hok [] page0 before eq_refl) as H0. cbn [PdfCompress.recompress_pages] in H0.
  cbn [app PdfCompress.recompress_pages].
  destruct (PdfCompress.recompress_page quality page0 h) as [h1 [e|]] eqn:Hpage;
    [discriminate|].
  apply IH. intros b1 page b2 ->.
  pose proof (Hok (page0 :: b1) page b2 eq_refl) as H1.
  cbn [PdfCompress.recompress_pages] in H1. rewrite Hpage in H1. exact H1.
Qed.
End ImageStage.

(** X4.  Unlike the compression of the pages, the image stage is not
    isolated page by page: its loop over the pages lies in one guarded
    block.  When the enumeration of the images of a page raises, the
    images that the page has yielded so far have had their attempts,
    the pages after it are not visited, and the pipeline goes on to the
    de-duplication and to stage 5. *)
Theorem image_stage_stops_at_first_failure (O : os) (L : pypdf)
    (input_path output_path : string) (lossless : bool) (quality : Z)
    (w : state O L) (data : bytes) (h1 : Heap L) (writer : Writer L)
    (before after : list (Page L)) (page : Page L) (e : exn) :
  read_file O (fspath O (Path O input_path)) (w_fs w) = Success data →
  PdfWriter_clone_from L data (w_heap w) = (h1, Success writer) →
  writer_pages L writer (PdfCompress.after_stage2 writer lossless h1)
  = before ++ page :: after →
  (∀ b1 page' b2, before = b1 ++ page' :: b2 →
     (PdfCompress.recompress_page quality page'
        (PdfCompress.recompress_pages quality b1
           (PdfCompress.after_stage2 writer lossless h1))).2 = None) →
  (PdfCompress.recompress_page quality page
     (PdfCompress.recompress_pages quality before
        (PdfCompress.after_stage2 writer lossless h1))).2 = Some e →
  run (PdfCompress.compress_pdf input_path output_path lossless (Some quality)) w
  = run (PdfCompress.save writer (Path O output_path))
      (set_heap
         (PdfCompress.after_stage4 writer
            (PdfCompress.recompress_page quality page
               (PdfCompress.recompress_pages quality before
                  (PdfCompress.after_stage2 writer lossless h1))).1) w).
Proof.
  intros Hread Hclone Hpages Hbefore Hpage.
  rewrite (extended_stages _ _ _ _ _ _ _ _ Hread Hclone).
  unfold PdfCompress.after_stages, PdfCompress.after_stage3.
  rewrite Hpages, (recompress_pages_app quality before (page :: after) _ Hbefore).
  cbn [PdfCompress.recompress_pages].
  destruct (PdfCompress.recompress_page quality page _) as [h3 [e0|]];
    [reflexivity|discriminate].
Qed.

Lemma image_stage_stops_at_first_failure_witness :
  run (PdfCompress.compress_pdf (O := ToyOS.sys) (L := ToyPdf.lib)
         "j.pdf" "doc.pdf" false (Some 50))
    ToyImages.world0
  = (World {[ "doc.pdf" := Tree.File [ToyPdf.b_q; ToyPdf.b_j; ToyPdf.b_i];
              "j.pdf" := Tree.File ToyImages.source ]}
       {| ToyPdf.src := [];
          ToyPdf.doc := [(ToyPdf.b_q, false); (ToyPdf.b_j, false);
                         (ToyPdf.b_i, false)] |} "" "", Ok tt).
Proof.
  rewrite (image_stage_stops_at_first_failure ToyOS.sys ToyPdf.lib
             "j.pdf" "doc.pdf"
             false 50 ToyImages.world0 ToyImages.source
             (PdfWriter_clone_from ToyPdf.lib ToyImages.source ToyPdf.heap0).1 tt
             [ToyPdf.DocPage 0] [ToyPdf.DocPage 2] (ToyPdf.DocPage 1)
             ToyPdf.PdfStreamError eq_refl eq_refl eq_refl).
  - vm_compute. reflexivity.
  - intros [|p0 b1] page' b2 Hb; [|destruct b1; discriminate].
    injection Hb as <- <-. reflexivity.
  - reflexivity.
Defined.

(** ** The destination is looked at last *)

(** X5.  The extended pipeline looks at its destination only after
    the compression: when the directory of the destination cannot be
    created, a regular file being in the way, say, every stage has run
    on the document by the time the pipeline raises the exception of
    [mkdir], and the destination is not opened: the file system is the
    one that [mkdir] left. *)
Theorem extended_pipeline_checks_destination_last (O : os) (L : pypdf)
    (input_path output_path : string) (lossless : bool)
    (image_quality : option Z) (w : state O L)
    (data : bytes) (h1 : Heap L) (writer : Writer L)
    (fs1 : Files O) (e : exn) :
  read_file O (fspath O (Path O input_path)) (w_fs w) = Success data →
  PdfWriter_clone_from L data (w_heap w) = (h1, Success writer) →
  mkdir O (parent O (Path O output_path)) true true (w_fs w)
  = (fs1, Failure e) →
  run (PdfCompress.compress_pdf input_path output_path lossless image_quality) w
  = (World fs1 (PdfCompress.after_stages writer lossless image_quality h1)
       (w_stdout w) (w_stderr w), Raise e).
Proof.
  intros Hread Hclone Hmk.
  rewrite (extended_stages _ _ _ _ _ _ _ _ Hread Hclone).
  apply (run_save_mkdir_fails writer _
           (set_heap (PdfCompress.after_stages writer lossless image_quality h1) w)
           fs1 e Hmk).
Qed.

Lemma extended_pipeline_checks_destination_last_witness :
  Tree.no_file_along ToyPdf.fs0 (Tree.parent (Tree.Path "in.pdf/out/doc.pdf"))
  = false ∧
  run (PdfCompress.compress_pdf (O := ToyOS.sys) (L := ToyPdf.lib)
         "in.pdf" "in.pdf/out/doc.pdf" true None) ToyPdf.world0
  = (World ToyPdf.fs0
       {| ToyPdf.src := [];
          ToyPdf.doc := [(Byte.x61, true); (ToyPdf.b_f, false);
                         (ToyPdf.b_i, true); (Byte.x62, true)] |}
       "" "", Raise Tree.ENOTDIR).
Proof.
  split; [reflexivity|].
  apply (extended_pipeline_checks_destination_last ToyOS.sys ToyPdf.lib
           "in.pdf" "in.pdf/out/doc.pdf" true None ToyPdf.world0
           ToyPdf.source
           (PdfWriter_clone_from ToyPdf.lib ToyPdf.source ToyPdf.heap0).1 tt
           ToyPdf.fs0 Tree.ENOTDIR eq_refl eq_refl eq_refl).
Defined.

(** ** What the basic pipeline leaves behind *)

(** X7.  When the basic pipeline raises, either the file system is as
    it was before the run, or the destination was opened and the
    exception is the one that ended the writing, raised by the system
    or by the library; the file system is then the one in which the
    bytes that the library wrote went to the destination, whatever the
    destination held before. *)
Theorem basic_pipeline_failure_footprint (O : os) (L : pypdf)
    (input_path output_path : string) (w w' : state O L) (e : exn) :
  run (CompressPdf.compress_pdf input_path output_path) w = (w', Raise e) →
  w_fs w' = w_fs w ∨
  (∃ (writer : Writer L) h fs1 f,
     open_wb O output_path (w_fs w) = Success (fs1, f) ∧
     w_fs w' = (write_close O f (write L writer h).2.1 fs1).1 ∧
     ((write_close O f (write L writer h).2.1 fs1).2 = Some e ∨
      (write L writer h).2.2 = Some e)).
Proof.
  destruct (basic_cases input_path output_path w)
    as [(h & e0 & ->) | (writer & h4 & ->)].
  { intros [= <- _]. left. reflexivity. }
  destruct (run_write_to_cases writer output_path (set_heap h4 w))
    as [(e0 & _ & ->) | (fs1 & f & Hopen & ->)].
  { intros [= <- _]. left. reflexivity. }
  cbn [w_heap set_heap w_fs].
  intros [= <- Hout]. right. exists writer, h4, fs1, f.
  split; [exact Hopen|]. split; [reflexivity|].
  destruct (with_outcome_raise _ _ _ Hout) as [H1 | [_ H2]]; [left|right];
    assumption.
Qed.

Lemma basic_pipeline_failure_footprint_witness :
  run (CompressPdf.compress_pdf (O := ToyFull.sys 1) (L := ToyPdf.lib)
         "in.pdf" "in.pdf")
    ToyPdf.world0
  = (World {[ "in.pdf" := Tree.File [Byte.x61] ]}
       {| ToyPdf.src := ToyPdf.source;
          ToyPdf.doc := map (λ b, (b, false)) ToyPdf.source |}
       "" "", Raise ToyFull.ENOSPC) ∧
  (w_fs (World (F := Files (ToyFull.sys 1)) (H := ToyPdf.heap)
           {[ "in.pdf" := Tree.File [Byte.x61] ]}
           {| ToyPdf.src := ToyPdf.source;
              ToyPdf.doc := map (λ b, (b, false)) ToyPdf.source |}
           "" "") = w_fs ToyPdf.world0 ∨
   ∃ (writer : Writer ToyPdf.lib) h fs1 f,
     open_wb (ToyFull.sys 1) "in.pdf" (w_fs ToyPdf.world0) = Success (fs1, f) ∧
     w_fs (World (F := Files (ToyFull.sys 1)) (H := ToyPdf.heap)
             {[ "in.pdf" := Tree.File [Byte.x61] ]}
             {| ToyPdf.src := ToyPdf.source;
                ToyPdf.doc := map (λ b, (b, false)) ToyPdf.source |}
             "" "")
     = (write_close (ToyFull.sys 1) f (write ToyPdf.lib writer h).2.1 fs1).1 ∧
     ((write_close (ToyFull.sys 1) f (write ToyPdf.lib writer h).2.1 fs1).2
      = Some ToyFull.ENOSPC ∨
      (write ToyPdf.lib writer h).2.2 = Some ToyFull.ENOSPC)).
Proof.
  split; [reflexivity|].
  apply (basic_pipeline_failure_footprint (ToyFull.sys 1) ToyPdf.lib
           "in.pdf" "in.pdf" ToyPdf.world0 _ ToyFull.ENOSPC eq_refl).
Defined.

(** X8.  In the basic pipeline a page that cannot be added is fatal:
    when [add_page] raises on a page, the pages before it having been
    added, the pipeline raises that exception on the heap that the
    failed call left.  The pages after it are not added, the
    compression is not attempted and the destination is not opened. *)
Theorem basic_pipeline_add_page_is_fatal (O : os) (L : pypdf)
    (input_path output_path : string) (w : state O L)
    (data : bytes) (h1 : Heap L) (reader : Reader L)
    (h2 : Heap L) (writer : Writer L)
    (before after : list (Page L)) (page : Page L)
    (hb hf : Heap L) (e : exn) :
  read_file O input_path (w_fs w) = Success data →
  PdfReader L data (w_heap w) = (h1, Success reader) →
  PdfWriter L h1 = (h2, Success writer) →
  reader_pages L reader h2 = before ++ page :: after →
  CompressPdf.add_pages writer before h2 = (hb, None) →
  add_page L writer page hb = (hf, Failure e) →
  run (CompressPdf.compress_pdf input_path output_path) w
  = (set_heap hf w, Raise e).
Proof.
  intros Hread Hparse Hnew Hpages Hbefore Hpage.
  eapply basic_add_page_fails; try eassumption.
  rewrite Hpages, add_pages_app, Hbefore.
  cbn [CompressPdf.add_pages]. rewrite Hpage. reflexivity.
Qed.

Lemma basic_pipeline_add_page_is_fatal_witness :
  run (CompressPdf.compress_pdf (O := ToyOS.sys) (L := ToyRefusing.lib)
         "in.pdf" "doc.pdf")
    ToyPdf.world0
  = (set_heap {| ToyPdf.src := ToyPdf.source; ToyPdf.doc := [(Byte.x61, false)] |}
       ToyPdf.world0, Raise ToyRefusing.PdfReadError).
Proof.
  apply (basic_pipeline_add_page_is_fatal ToyOS.sys ToyRefusing.lib
           "in.pdf" "doc.pdf"
           ToyPdf.world0 ToyPdf.source
           {| ToyPdf.src := ToyPdf.source; ToyPdf.doc := [] |} tt
           {| ToyPdf.src := ToyPdf.source; ToyPdf.doc := [] |} tt
           [ToyPdf.SrcPage 0] [ToyPdf.SrcPage 2; ToyPdf.SrcPage 3]
           (ToyPdf.SrcPage 1)
           {| ToyPdf.src := ToyPdf.source; ToyPdf.doc := [(Byte.x61, false)] |}
           {| ToyPdf.src := ToyPdf.source; ToyPdf.doc := [(Byte.x61, false)] |}
           ToyRefusing.PdfReadError);
    reflexivity.
Defined.

(** ** The command line of the extended compressor, at its edges *)

Section ExtendedCli.
Context {O : os} {L : pypdf}.
Implicit Types (w : state O L) (h : Heap L).

(** When the writing returns, the destination was opened, and the
    library and the system raised nothing. *)
Lemma write_to_ok_inv (writer : Writer L) (name : string) w w' :
  run (write_to writer name) w = (w', Ok tt) →
  ∃ fs1 f,
    open_wb O name (w_fs w) = Success (fs1, f) ∧
    (write L writer (w_heap w)).2.2 = None ∧
    write_close O f (write L writer (w_heap w)).2.1 fs1 = (w_fs w', None).
Proof.
  destruct (run_write_to_cases writer name w)
    as [(e & _ & ->) | (fs1 & f & Hopen & ->)]; [discriminate|].
  intros [= <- Hout]. apply with_outcome_ok in Hout as [Hclosed Hwritten].
  exists fs1, f. split; [exact Hopen|]. split; [exact Hwritten|].
  cbn [w_fs].
  destruct (write_close O f (write L writer (w_heap w)).2.1 fs1) as [fs2 r].
  cbn [fst snd] in *. rewrite Hclosed. reflexivity.
Qed.

(** When the pipeline returns, the directory call returned, the
    destination was opened, and the library and the system raised
    nothing while the document was written. *)
Lemma extended_ok_inv input_path output_path lossless image_quality w w' :
  run (PdfCompress.compress_pdf input_path output_path lossless image_quality) w
  = (w', Ok tt) →
  ∃ (writer : Writer L) h fs0 u fs1 f,
    mkdir O (parent O (Path O output_path)) true true (w_fs w)
    = (fs0, Success u) ∧
    open_wb O (fspath O (Path O output_path)) fs0 = Success (fs1, f) ∧
    (write L writer h).2.2 = None ∧
    write_close O f (write L writer h).2.1 fs1 = (w_fs w', None).
Proof.
  destruct (extended_cases input_path output_path lossless image_quality w)
    as [(h & e & ->) | (writer & h4 & ->)]; [discriminate|].
  rewrite run_save. cbn [w_fs set_heap].
  destruct (mkdir O (parent O (Path O output_path)) true true (w_fs w))
    as [fs0 [u|e]] eqn:Hmk; [|discriminate].
  intros Hrun. apply write_to_ok_inv in Hrun as (fs1 & f & Hopen & Hw & Hc).
  exists writer, h4, fs0, u, fs1, f. repeat split; assumption.
Qed.
End ExtendedCli.

(** X11.  The extended compressor exits with 2 exactly when it is given
    fewer than two positional arguments: with two or more its exit
    status is 0 or that of an uncaught exception, whatever the library
    and the file system do. *)
Theorem extended_cli_status_two (O : os) (L : pypdf) (argv : list string)
    (w : state O L) :
  exit_status (run (PdfCompress.script argv) w).2 = 2 ↔ (length argv < 3)%nat.
Proof.
  split.
  - intros Hstatus.
    destruct (Nat.lt_ge_cases (length argv) 3%nat) as [Hlt|Hge]; [exact Hlt|].
    exfalso.
    destruct argv as [|prog [|input [|output rest]]]; try (simpl in Hge; lia).
    revert Hstatus. unfold PdfCompress.script. rewrite run_bind.
    destruct (extended_main_cases prog input output rest w)
      as [(a & e & _ & _ & ->) | (quality & ->)]; [discriminate|].
    pose proof (extended_never_exits input output true quality w) as Hne.
    destruct (run (PdfCompress.compress_pdf input output true quality) w)
      as [w' [[]|e|c]]; try discriminate.
    contradiction (Hne c). reflexivity.
  - intros Hlen. unfold PdfCompress.script.
    rewrite run_bind, (extended_main_too_few argv w Hlen). reflexivity.
Qed.

(** X12.  What the extended compressor returns tells what it did: [main]
    returns 2 or 0 and nothing else; when it returns 2 the file system
    is untouched, and when it returns 0 the directory call on the
    parent of the output path, its third entry, returned, the output
    path was opened, and a document was written to it and the file
    closed with no exception, neither of the library nor of the system:
    the file system is the one that this writing left. *)
Theorem extended_cli_zero_means_written (O : os) (L : pypdf)
    (argv : list string) (w w' : state O L) (code : Z) :
  run (PdfCompress.main argv) w = (w', Ok code) →
  (code = 2 ∧ (length argv < 3)%nat ∧ w_fs w' = w_fs w) ∨
  (code = 0 ∧
   ∃ output (writer : Writer L) h fs0 u fs1 f,
     argv !! 2%nat = Some output ∧
     mkdir O (parent O (Path O output)) true true (w_fs w) = (fs0, Success u) ∧
     open_wb O (fspath O (Path O output)) fs0 = Success (fs1, f) ∧
     (write L writer h).2.2 = None ∧
     write_close O f (write L writer h).2.1 fs1 = (w_fs w', None)).
Proof.
  destruct (Nat.lt_ge_cases (length argv) 3%nat) as [Hlt|Hge].
  - rewrite (extended_main_too_few argv w Hlt). intros [= <- <-].
    left. repeat split. exact Hlt.
  - destruct argv as [|prog [|input [|output rest]]]; try (simpl in Hge; lia).
    destruct (extended_main_cases prog input output rest w)
      as [(a & e & _ & _ & ->) | (quality & ->)]; [discriminate|].
    destruct (run (PdfCompress.compress_pdf input output true quality) w)
      as [w1 [[]|e|c]] eqn:Hrun; try discriminate.
    intros [= <- <-]. right. split; [reflexivity|].
    destruct (extended_ok_inv _ _ _ _ _ _ Hrun)
      as (writer & h & fs0 & u & fs1 & f & Hmk & Hopen & Hw & Hc).
    exists output, writer, h, fs0, u, fs1, f. repeat split; assumption.
Qed.

Lemma extended_cli_zero_means_written_witness :
  ∃ fs0 fs1 f data,
    mkdir ToyOS.sys (parent ToyOS.sys (Path ToyOS.sys "out/doc.pdf")) true true
      ToyPdf.fs0 = (fs0, Success tt) ∧
    open_wb ToyOS.sys (fspath ToyOS.sys (Path ToyOS.sys "out/doc.pdf")) fs0
    = Success (fs1, f) ∧
    write_close ToyOS.sys f data fs1
    = (w_fs (run (PdfCompress.main (O := ToyOS.sys) (L := ToyPdf.lib)
                    ["pdf_compress.py"; "in.pdf"; "out/doc.pdf"])
               ToyPdf.world0).1, None).
Proof.
  destruct (extended_cli_zero_means_written ToyOS.sys ToyPdf.lib
              ["pdf_compress.py"; "in.pdf"; "out/doc.pdf"] ToyPdf.world0
              (run (PdfCompress.main (O := ToyOS.sys) (L := ToyPdf.lib)
                      ["pdf_compress.py"; "in.pdf"; "out/doc.pdf"])
                 ToyPdf.world0).1 0 eq_refl)
    as [(Hcode & _) | (_ & output & writer & h & fs0 & u & fs1 & f
                         & Hout & Hmk & Hopen & _ & Hc)];
    [discriminate|].
  injection Hout as <-. destruct u.
  exists fs0, fs1, f, (write ToyPdf.lib writer h).2.1.
  split; [exact Hmk|]. split; [exact Hopen|exact Hc].
Defined.

(** X13.  The extended compressor reads three positional arguments and
    ignores the rest: what follows the image quality changes nothing. *)
Theorem extended_cli_ignores_trailing_arguments (O : os) (L : pypdf)
    (prog input output a : string) (rest : list string) (w : state O L) :
  run (PdfCompress.main (prog :: input :: output :: a :: rest)) w
  = run (PdfCompress.main [prog; input; output; a]) w.
Proof.
  destruct (PyInt.int a) as [q|e] eqn:Hint.
  - rewrite (extended_main_runs_pipeline prog input output (a :: rest) (Some q) w)
      by eauto.
    rewrite (extended_main_runs_pipeline prog input output [a] (Some q) w)
      by eauto.
    reflexivity.
  - rewrite (extended_main_bad_quality prog input output a rest w e Hint).
    rewrite (extended_main_bad_quality prog input output a [] w e Hint).
    reflexivity.
Qed.

(** ** The command line of the basic compressor, at its edges *)

(** X15.  The basic compressor exits with 0 only when it was given
    exactly two arguments and has written its output: the output path
    was opened, and a document was written to it and the file closed
    with no exception, neither of the library nor of the system. *)
Theorem basic_cli_zero_means_written (O : os) (L : pypdf)
    (argv : list string) (w : state O L) :
  exit_status (run (CompressPdf.script argv) w).2 = 0 →
  ∃ prog input output (writer : Writer L) h fs1 f,
    argv = [prog; input; output] ∧
    open_wb O output (w_fs w) = Success (fs1, f) ∧
    (write L writer h).2.2 = None ∧
    write_close O f (write L writer h).2.1 fs1
    = (w_fs (run (CompressPdf.script argv) w).1, None).
Proof.
  intros Hstatus.
  destruct (Nat.eq_dec (length argv) 3%nat) as [Hlen|Hlen].
  - destruct argv as [|prog [|input [|output [|]]]]; try discriminate.
    revert Hstatus. unfold CompressPdf.script.
    rewrite basic_main_runs_pipeline.
    destruct (basic_cases input output w)
      as [(h & e & Hrun) | (writer & h4 & Hrun)]; rewrite Hrun;
      [discriminate|].
    destruct (run (write_to writer output) (set_heap h4 w))
      as [w1 [[]|e|c]] eqn:Hw; cbn [fst snd exit_status].
    + intros _. apply write_to_ok_inv in Hw as (fs1 & f & Hopen & Hwr & Hc).
      exists prog, input, output, writer, h4, fs1, f.
      repeat split; assumption.
    + discriminate.
    + intros _. exfalso.
      apply (write_to_never_exits writer output (set_heap h4 w) c).
      rewrite Hw. reflexivity.
  - exfalso. revert Hstatus. unfold CompressPdf.script.
    rewrite (basic_main_wrong_count argv w Hlen). discriminate.
Qed.

Lemma basic_cli_zero_means_written_witness :
  ∃ prog input output (writer : Writer ToyPdf.lib) h fs1 f,
    ["compress_pdf.py"; "in.pdf"; "doc.pdf"] = [prog; input; output] ∧
    open_wb ToyOS.sys output ToyPdf.fs0 = Success (fs1, f) ∧
    (write ToyPdf.lib writer h).2.2 = None ∧
    write_close ToyOS.sys f (write ToyPdf.lib writer h).2.1 fs1
    = (w_fs (run (CompressPdf.script (O := ToyOS.sys) (L := ToyPdf.lib)
                    ["compress_pdf.py"; "in.pdf"; "doc.pdf"]) ToyPdf.world0).1,
       None).
Proof.
  apply (basic_cli_zero_means_written ToyOS.sys ToyPdf.lib
           ["compress_pdf.py"; "in.pdf"; "doc.pdf"] ToyPdf.world0 eq_refl).
Defined.

(** ** The command line of the renderer, at its edges *)

(** X16.  The renderer converts its sizes before it enters its guarded
    block: a WIDTH that is not an integer literal, or a HEIGHT that is
    not one after a WIDTH that is, raises the [ValueError] of [int] out
    of [main], with nothing printed and no call to the library.  The
    line [ERROR: ...] and the return value 1 are for the failures of
    the rendering only. *)
Theorem render_cli_bad_size (F : Type) (R : rdkit) (prog smiles a : string)
    (rest : list string) (w : world F (RHeap R)) (e : exn) :
  (PyInt.int a = Failure e →
   run (Render.main (prog :: smiles :: a :: rest)) w = (w, Raise e)) ∧
  (∀ width b rest',
     PyInt.int a = Success width → rest = b :: rest' →
     PyInt.int b = Failure e →
     run (Render.main (prog :: smiles :: a :: rest)) w = (w, Raise e)).
Proof.
  split.
  - apply render_main_bad_width.
  - intros width b rest' Hw -> Hh. eapply render_main_bad_height; eassumption.
Qed.

Lemma render_cli_bad_size_witness :
  run (Render.main (F := unit) (R := ToyChem.lib "") ["render.py"; "CCO"; "wide"])
    ToyChem.world0
  = (ToyChem.world0, Raise (PyInt.invalid_literal "wide")) ∧
  run (Render.main (F := unit) (R := ToyChem.lib "") ["render.py"; "CCO"; "640"; "4:3"])
    ToyChem.world0
  = (ToyChem.world0, Raise (PyInt.invalid_literal "4:3")).
Proof.
  split.
  - apply (render_cli_bad_size unit (ToyChem.lib "") "render.py" "CCO" "wide" []
             ToyChem.world0 (PyInt.invalid_literal "wide")). reflexivity.
  - destruct (render_cli_bad_size unit (ToyChem.lib "") "render.py" "CCO" "640"
                ["4:3"] ToyChem.world0 (PyInt.invalid_literal "4:3"))
      as [_ Hheight].
    apply (Hheight 640 "4:3" []); reflexivity.
Defined.

(** X17.  The renderer's exit status 2 has two meanings.  The script,
    run from its first line, exits with 2 exactly when the import of
    RDKit raises or no structure is given; in the first case it has
    printed [ERROR: rdkit import failed: ...] to the error stream, and
    [main] has not run. *)
Theorem render_script_status_two (F : Type) (R : rdkit)
    (imported : result unit)
    (argv : list string) (w : world F (RHeap R)) :
  (exit_status (run (RenderScript.program imported argv) w).2 = 2
   ↔ (∃ e, imported = Failure e) ∨ (length argv < 2)%nat) ∧
  (∀ e, imported = Failure e →
     run (RenderScript.program imported argv) w
     = (World (w_fs w) (w_heap w) (w_stdout w)
          (w_stderr w +:+ ("ERROR: rdkit import failed: " +:+ str e) +:+ newline),
        Exit 2)).
Proof.
  split.
  - destruct imported as [[]|e].
    + rewrite run_program_imported. unfold Render.script. rewrite run_bind.
      split.
      * intros Hstatus. right.
        destruct (Nat.lt_ge_cases (length argv) 2%nat) as [Hlt|Hge]; [exact Hlt|].
        exfalso. destruct argv as [|prog [|smiles rest]]; try (simpl in Hge; lia).
        revert Hstatus.
        destruct (render_main_cases prog smiles rest w)
          as [(e & ->) | (width & height & ->)]; [discriminate|].
        destruct (drawing R smiles width height (w_heap w)).2; discriminate.
      * intros [[e He] | Hlen]; [discriminate|].
        rewrite (render_main_too_few argv w Hlen). reflexivity.
    + rewrite run_program_not_imported. split; [|reflexivity].
      intros _. left. exists e. reflexivity.
  - intros e ->. apply run_program_not_imported.
Qed.

(** X18.  What the renderer prints when it returns 0, its leading white
    space stripped, starts with [<?xml]; it is one [print], ended by a
    line break, and nothing goes to the error stream. *)
Theorem render_cli_output_has_xml_header (F : Type) (R : rdkit)
    (argv : list string)
    (w w' : world F (RHeap R)) :
  run (Render.main argv) w = (w', Ok 0) →
  ∃ printed,
    w_stdout w' = w_stdout w +:+ printed +:+ newline ∧
    startswith (lstrip printed) "<?xml" = true ∧
    w_stderr w' = w_stderr w.
Proof.
  destruct (Nat.lt_ge_cases (length argv) 2%nat) as [Hlt|Hge].
  { rewrite (render_main_too_few argv w Hlt). discriminate. }
  destruct argv as [|prog [|smiles rest]]; try (simpl in Hge; lia).
  destruct (render_main_cases prog smiles rest w)
    as [(e & ->) | (width & height & ->)]; [discriminate|].
  destruct (drawing R smiles width height (w_heap w)) as [h1 [svg|e]];
    cbn [fst snd]; [|discriminate].
  intros [= <-]. cbn [w_stdout w_stderr].
  destruct (startswith (lstrip svg) "<?xml") eqn:Hstart.
  - exists svg. repeat split. exact Hstart.
  - exists (Render.xml_header +:+ svg). repeat split.
Qed.

Lemma render_cli_output_has_xml_header_witness :
  ∃ printed,
    w_stdout (run (Render.main (F := unit) (R := ToyChem.lib "") ["render.py"; "CCO"])
                ToyChem.world0).1
    = w_stdout ToyChem.world0 +:+ printed +:+ newline ∧
    startswith (lstrip printed) "<?xml" = true ∧
    w_stderr (run (Render.main (F := unit) (R := ToyChem.lib "") ["render.py"; "CCO"])
                ToyChem.world0).1 = w_stderr ToyChem.world0.
Proof.
  apply (render_cli_output_has_xml_header unit (ToyChem.lib "")
           ["render.py"; "CCO"] ToyChem.world0). reflexivity.
Defined.

(** X20.  The two renderers agree.  For every structure, the renderer
    of the command line, run at its default size, prints the body of
    the 200 that [GET /svg] answers, after an XML declaration when the
    body needs one, and returns 0; and it prints [ERROR: ] and the
    detail of the 400 that [GET /svg] answers, and returns 1. *)
Theorem renderers_agree (F : Type) (R : rdkit) (prog smiles : string)
    (w : world F (RHeap R)) :
  match Service.payload (Service.get_svg smiles w) with
  | Service.Raw text =>
      Service.status (Service.get_svg smiles w) = 200 ∧
      ∃ h, run (Render.main [prog; smiles]) w
           = (World (w_fs w) h
                (w_stdout w
                 +:+ (if startswith (lstrip text) "<?xml" then text
                      else Render.xml_header +:+ text)
                 +:+ newline)
                (w_stderr w), Ok 0)
  | Service.JsonDetail detail =>
      Service.status (Service.get_svg smiles w) = 400 ∧
      ∃ h, run (Render.main [prog; smiles]) w
           = (World (w_fs w) h (w_stdout w)
                (w_stderr w +:+ ("ERROR: " +:+ detail) +:+ newline), Ok 1)
  | Service.InternalServerError => False
  end.
Proof.
  unfold Service.get_svg. rewrite run_svg. cbn [snd].
  rewrite (render_main_draws prog smiles [] 400 300 w (conj eq_refl eq_refl)).
  destruct (drawing R smiles 400 300 (w_heap w)) as [h1 [text|e]];
    cbn [fst snd Service.respond Service.payload Service.status
         Service.content Service.status_code];
    (split; [reflexivity|]); exists h1; reflexivity.
Qed.

(** X19.  The renderer reads three positional arguments and ignores the
    rest: what follows the height changes nothing. *)
Theorem render_cli_ignores_trailing_arguments (F : Type) (R : rdkit)
    (prog smiles a b : string) (rest : list string) (w : world F (RHeap R)) :
  run (Render.main (prog :: smiles :: a :: b :: rest)) w
  = run (Render.main [prog; smiles; a; b]) w.
Proof.
  destruct (PyInt.int a) as [width|e] eqn:Hw.
  - destruct (PyInt.int b) as [height|e] eqn:Hh.
    + rewrite (render_main_draws prog smiles (a :: b :: rest) width height w
                 (conj Hw Hh)).
      rewrite (render_main_draws prog smiles [a; b] width height w
                 (conj Hw Hh)).
      reflexivity.
    + rewrite (render_main_bad_height prog smiles a b rest width w e Hw Hh).
      rewrite (render_main_bad_height prog smiles a b [] width w e Hw Hh).
      reflexivity.
  - rewrite (render_main_bad_width prog smiles a (b :: rest) w e Hw).
    rewrite (render_main_bad_width prog smiles a [b] w e Hw).
    reflexivity.
Qed.
